(** * Engineering-drawing generator: a shallow embedding and its properties

    The program under study is [3d_synthetic_data_generator.py]: it loads a
    triangle mesh, slices it along named planes, renders every outline into a
    panel of a matplotlib figure, adds a title block and a notes panel, and
    saves the figure.

    Modelling choices.
    - Python floats and numpy [float64] values are IEEE binary64 numbers:
      Rocq's primitive [float], whose operations round as the hardware does.
    - Python exceptions are values of [exn]; a call that can raise returns a
      [result].
    - Mutated objects (the mesh, the axes of the figure), the files written
      and the console live in a [world] that is threaded through a
      state-and-exception monad [M].
    - [trimesh], the file system, the pyplot back end, the clock and the
      case tables of Unicode behind [str.upper()] are not part of the
      program: their entry points are the fields of a record [externals], and
      every statement below holds for all of them.
    - The numpy and matplotlib functions whose results the program inspects
      ([np.allclose], [np.vstack], the constructor of [matplotlib.path.Path],
      the validation of [set_xlim] and [set_ylim], the [.2f] format, [repr])
      are written out from their documentation. *)

From Stdlib Require Import ZArith List String Ascii Floats Uint63 Bool Lia.
From Stdlib Require Import DecimalString.
From stdpp Require Import gmap strings list.
Import ListNotations.

#[local] Set Warnings "-inexact-float".
#[local] Open Scope string_scope.
#[local] Open Scope list_scope.

(** ** Python strings

    A [str] is kept as the bytes of its UTF-8 encoding. *)

Definition single_quote : ascii := ascii_of_nat 39.
Definition double_quote : ascii := ascii_of_nat 34.
Definition backslash : ascii := ascii_of_nat 92.

Fixpoint occurs (c : ascii) (s : string) : bool :=
  match s with
  | EmptyString => false
  | String c' s' => Ascii.eqb c c' || occurs c s'
  end.

Definition hex_digit (n : nat) : ascii :=
  ascii_of_nat (if (n <? 10)%nat then 48 + n else 87 + n).

(** One character inside [repr(s)]: the quote and the backslash are
    escaped, tab, newline and carriage return have their letters, the other
    control characters are written [\xhh]. Bytes from 128 on are kept: they
    encode the characters outside ASCII, which [repr] leaves alone when they
    are printable. *)
Definition repr_char (quote c : ascii) : string :=
  let n := nat_of_ascii c in
  if Ascii.eqb c quote || Ascii.eqb c backslash then
    String backslash (String c EmptyString)
  else if (n =? 9)%nat then String backslash "t"
  else if (n =? 10)%nat then String backslash "n"
  else if (n =? 13)%nat then String backslash "r"
  else if ((n <? 32) || (n =? 127))%nat then
    String backslash
      (String "x" (String (hex_digit (n / 16))
                     (String (hex_digit (n mod 16)) EmptyString)))
  else String c EmptyString.

Fixpoint repr_chars (quote : ascii) (s : string) : string :=
  match s with
  | EmptyString => EmptyString
  | String c s' => repr_char quote c +:+ repr_chars quote s'
  end.

(** [repr(s)]: in single quotes, unless [s] holds a single quote and no
    double quote. *)
Definition py_repr (s : string) : string :=
  let quote :=
    if occurs single_quote s && negb (occurs double_quote s) then double_quote
    else single_quote in
  String quote (repr_chars quote s) +:+ String quote EmptyString.

(** ** Exceptions and results *)

Inductive exn_class :=
| FileNotFoundError
| KeyError
| IndexError
| ValueError
| TypeError
| AttributeError
| RuntimeError.

(** An exception: its class and [str(e)], the text an f-string prints. *)
Record exn := Exn { exn_cls : exn_class; exn_str : string }.

Definition exn_class_eqb (a b : exn_class) : bool :=
  match a, b with
  | FileNotFoundError, FileNotFoundError
  | KeyError, KeyError
  | IndexError, IndexError
  | ValueError, ValueError
  | TypeError, TypeError
  | AttributeError, AttributeError
  | RuntimeError, RuntimeError => true
  | _, _ => false
  end.

Inductive result (A : Type) :=
| Ok (a : A)
| Raise (e : exn).
Arguments Ok {A} a.
Arguments Raise {A} e.

(** [d[k]] on a missing key: [str(KeyError(k))] is the key's [repr]. *)
Definition key_error (k : string) : exn :=
  Exn KeyError (py_repr k).

(** Subscripting a dictionary. *)
Definition getitem {V} (d : gmap string V) (k : string) : result V :=
  match d !! k with
  | Some v => Ok v
  | None => Raise (key_error k)
  end.

(** ** Numbers *)

Definition point : Type := float * float.
Definition vec3 : Type := float * float * float.

(** Python's builtin [max(a, b)]: the first argument unless the second is
    strictly greater. *)
Definition py_max (a b : float) : float :=
  if PrimFloat.ltb a b then b else a.

(** [np.isfinite]: neither an infinity nor a NaN. *)
Definition is_finite (x : float) : bool :=
  match Prim2SF x with
  | S754_zero _ | S754_finite _ _ _ => true
  | S754_infinity _ | S754_nan => false
  end.

(** [np.isclose(a, b, rtol, atol)] on scalars, [equal_nan] left at [False]:
    [(|a - b| <= atol + rtol * |b|) & isfinite(b) | (a == b)]. *)
Definition np_isclose (rtol atol a b : float) : bool :=
  (PrimFloat.leb (abs (a - b)) (atol + rtol * abs b) && is_finite b)
  || PrimFloat.eqb a b.

(** The default [rtol] of [np.allclose]. *)
Definition default_rtol : float := 1e-5.

(** [np.allclose] on two rows of an [(n, 2)] array. *)
Definition np_allclose (atol : float) (p q : point) : bool :=
  np_isclose default_rtol atol (fst p) (fst q)
  && np_isclose default_rtol atol (snd p) (snd q).

(** ** The [.2f] format

    CPython prints the decimal expansion of the exact binary value, rounded
    to two digits after the point, ties to even. *)

Definition round_half_even_div (num den : Z) : Z :=
  let q := (num / den)%Z in
  let r := (num mod den)%Z in
  match (2 * r ?= den)%Z with
  | Lt => q
  | Gt => (q + 1)%Z
  | Eq => if Z.even q then q else (q + 1)%Z
  end.

(** [|m * 2^e| * 100] rounded to an integer. *)
Definition hundredths (m : positive) (e : Z) : Z :=
  if (0 <=? e)%Z then (Z.pos m * 2 ^ e * 100)%Z
  else round_half_even_div (Z.pos m * 100) (2 ^ (- e)).

Definition decimal (n : Z) : string :=
  NilEmpty.string_of_uint (N.to_uint (Z.to_N n)).

Definition two_digits (n : Z) : string :=
  if (n <? 10)%Z then "0" +:+ decimal n else decimal n.

Definition format_2f (x : float) : string :=
  match Prim2SF x with
  | S754_nan => "nan"
  | S754_infinity s => if s then "-inf" else "inf"
  | S754_zero s => if s then "-0.00" else "0.00"
  | S754_finite s m e =>
      let n := hundredths m e in
      (if s then "-" else "")
        +:+ decimal (n / 100) +:+ "." +:+ two_digits (n mod 100)
  end.

(** ** Outlines, drawing metadata and matplotlib artists *)

Definition polyline : Type := list point.

(** A [trimesh.path.Path2D] as far as the program reads it: the polylines of
    [discrete], and [bounds] as its two rows (minimum corner, maximum
    corner). *)
Record Path2D := {
  discrete : list polyline;
  path_bounds : point * point
}.

(** Values stored in the drawing metadata: strings, and the nested
    dictionary of tolerances, as its [items()] in insertion order. *)
Inductive pyval :=
| PStr (s : string)
| PDict (items : list (string * string)).

(** The value stored under [k] in a dictionary given by its items. *)
Fixpoint dict_get (items : list (string * string)) (k : string) : option string :=
  match items with
  | [] => None
  | (k', v) :: items' => if String.eqb k' k then Some v else dict_get items' k
  end.

(** A slicing plane: a dictionary with the keys [origin] and [normal]. *)
Definition plane : Type := gmap string vec3.

(** The [views] dictionary, as its [items()] in insertion order. *)
Definition views_t : Type := list (string * plane).

(** Keyword arguments of matplotlib calls. *)
Inductive kwval :=
| KStr (s : string)
| KNum (x : float).

Definition kwargs : Type := list (string * kwval).

Inductive path_code := MOVETO | LINETO | CLOSEPOLY.

Record MplPath := {
  vertices : polyline;
  codes : list path_code
}.

(** The number that stands for a code in a [Path]. *)
Definition code_number (c : path_code) : Z :=
  match c with
  | MOVETO => 1
  | LINETO => 2
  | CLOSEPOLY => 79
  end.

(** The constructor of [matplotlib.path.Path] refuses a list of codes whose
    length differs from the number of vertices, or that does not start with
    [MOVETO]; the vertices are the rows of an array of shape [(n, 2)]. *)
Definition MplPath_new (verts : polyline) (cs : list path_code)
  : result MplPath :=
  if negb (length cs =? length verts)%nat then
    Raise (Exn ValueError
      ("'codes' must be a 1D list or array with the same length of 'vertices'. "
       +:+ "Your vertices have shape (" +:+ decimal (Z.of_nat (length verts))
       +:+ ", 2) but your codes have shape ("
       +:+ decimal (Z.of_nat (length cs)) +:+ ",)"))
  else
    match cs with
    | (LINETO | CLOSEPOLY) as c :: _ =>
        Raise (Exn ValueError
          ("The first element of 'code' must be equal to 'MOVETO' (1).  "
           +:+ "Your first code is " +:+ decimal (code_number c)))
    | _ => Ok {| vertices := verts; codes := cs |}
    end.

Inductive patch :=
| PathPatch (p : MplPath) (kw : kwargs)
| Rectangle (xy : point) (w h : float) (kw : kwargs).

(** The calls the program makes on an axes object. *)
Inductive ax_cmd :=
| ax_set_title (label : string) (kw : kwargs)
| ax_axis (arg : string)
| ax_add_patch (p : patch)
| ax_plot (xs ys : list float) (fmt : option string) (kw : kwargs)
| ax_annotate (s : string) (xy xytext : point) (arrowprops : kwargs)
| ax_text (x y : float) (s : pyval) (kw : kwargs)
| ax_set_xlim (lo hi : float)
| ax_set_ylim (lo hi : float)
| ax_set_aspect (mode : string).

(** [left, bottom, width, height], in figure fractions. *)
Definition rect : Type := float * float * float * float.

(** A figure: the regions given to [fig.add_axes] (an axes handle is the
    index of its region) and the calls made on its axes, in program order. *)
Record figure := {
  figsize : float * float;
  facecolor : string;
  fig_axes : list rect;
  fig_artists : list (nat * ax_cmd)
}.

(** ** The world outside the program *)

Record externals := {
  Mesh : Type;
  Path3D : Type;
  Transform : Type;
  (** [trimesh.load_mesh(path)]: reads the file system. *)
  ext_load_mesh : string -> result Mesh;
  (** [mesh.center_mass] *)
  ext_center_mass : Mesh -> vec3;
  (** [mesh.apply_translation(t)]: the translated mesh. *)
  ext_apply_translation : Mesh -> vec3 -> Mesh;
  (** [mesh.bounds]: [None] for a mesh without vertices. *)
  ext_bounds : Mesh -> option (vec3 * vec3);
  (** [mesh.section(plane_origin, plane_normal)]: [None] when the plane
      misses the mesh. *)
  ext_section : Mesh -> vec3 -> vec3 -> result (option Path3D);
  (** [section.to_2D()]: the planar path and the transform back to 3D. *)
  ext_to_2D : Path3D -> result (Path2D * Transform);
  (** [plt.savefig(path, ...)]: [None] when the image was written. *)
  ext_savefig : string -> kwargs -> figure -> option exn;
  (** [plt.show()] *)
  ext_show : figure -> option exn;
  (** [datetime.now().strftime("%Y-%m-%d")] *)
  ext_today : string;
  (** [s.upper()]: Python follows the case mappings of Unicode. *)
  ext_upper : string -> string
}.

(** The externals in scope are found where a definition leaves them
    implicit. *)
Existing Class externals.

Record world (E : externals) := World {
  meshes : list (Mesh E);
  current_figure : figure;
  files : list (string * figure);
  console : list string
}.
Arguments World {E}.
Arguments meshes {E}.
Arguments current_figure {E}.
Arguments files {E}.
Arguments console {E}.

(** ** The monad of the program: state and exceptions *)

Definition M (E : externals) (A : Type) : Type :=
  world E -> world E * result A.

Section Monad.
Context {E : externals}.

Definition ret {A} (a : A) : M E A := fun w => (w, Ok a).

Definition bind {A B} (m : M E A) (k : A -> M E B) : M E B :=
  fun w =>
    match m w with
    | (w', Ok a) => k a w'
    | (w', Raise e) => (w', Raise e)
    end.

Definition raise {A} (e : exn) : M E A := fun w => (w, Raise e).

Definition lift {A} (r : result A) : M E A := fun w => (w, r).

(** [try: body  except ...: handler e] *)
Definition try_except {A} (body : M E A) (handler : exn -> M E A) : M E A :=
  fun w =>
    match body w with
    | (w', Ok a) => (w', Ok a)
    | (w', Raise e) => handler e w'
    end.

(** [for x in l: body x] *)
Fixpoint for_each {A} (l : list A) (body : A -> M E unit) : M E unit :=
  match l with
  | [] => ret tt
  | x :: l' => bind (body x) (fun _ => for_each l' body)
  end.

End Monad.

#[global] Instance M_ret {E} : MRet (M E) := fun _ a => ret a.
#[global] Instance M_bind {E} : MBind (M E) := fun _ _ k m => bind m k.

(** ** Library calls, as actions on the world *)

Section Library.
Context {E : externals}.

Definition set_meshes (ms : list (Mesh E)) (w : world E) : world E :=
  World ms (current_figure w) (files w) (console w).

Definition set_figure (f : figure) (w : world E) : world E :=
  World (meshes w) f (files w) (console w).

Definition set_files (fs : list (string * figure)) (w : world E) : world E :=
  World (meshes w) (current_figure w) fs (console w).

Definition set_console (c : list string) (w : world E) : world E :=
  World (meshes w) (current_figure w) (files w) c.

(** A mesh object is named by its index in [meshes]. References handed out
    by [trimesh_load_mesh] are always valid; a reference that is not is
    reported as a [RuntimeError], which no run of the program produces. *)
Definition invalid_reference : exn :=
  Exn RuntimeError "invalid mesh reference".

Definition deref (mesh : nat) : M E (Mesh E) :=
  fun w =>
    match meshes w !! mesh with
    | Some m => (w, Ok m)
    | None => (w, Raise invalid_reference)
    end.

(** [trimesh.load_mesh(file_path)]: a new mesh object. *)
Definition trimesh_load_mesh (file_path : string) : M E nat :=
  fun w =>
    match ext_load_mesh E file_path with
    | Ok m => (set_meshes (meshes w ++ [m]) w, Ok (length (meshes w)))
    | Raise e => (w, Raise e)
    end.

Definition mesh_center_mass (mesh : nat) : M E vec3 :=
  m ← deref mesh; mret (ext_center_mass E m).

Definition store (mesh : nat) (m : Mesh E) : M E unit :=
  fun w => (set_meshes (<[mesh := m]> (meshes w)) w, Ok tt).

(** [mesh.apply_translation(t)] updates the mesh object in place. *)
Definition mesh_apply_translation (mesh : nat) (t : vec3) : M E unit :=
  m ← deref mesh; store mesh (ext_apply_translation E m t).

Definition mesh_bounds (mesh : nat) : M E (option (vec3 * vec3)) :=
  m ← deref mesh; mret (ext_bounds E m).

Definition mesh_section (mesh : nat) (origin normal : vec3)
  : M E (option (Path3D E)) :=
  m ← deref mesh; lift (ext_section E m origin normal).

Definition section_to_2D (s : Path3D E) : M E (Path2D * Transform E) :=
  lift (ext_to_2D E s).

(** [plt.figure(figsize=size)]: a new, empty current figure. *)
Definition plt_figure (size : float * float) : M E unit :=
  fun w =>
    (set_figure {| figsize := size; facecolor := "white";
                   fig_axes := []; fig_artists := [] |} w, Ok tt).

(** [fig.patch.set_facecolor(c)] *)
Definition fig_set_facecolor (c : string) : M E unit :=
  fun w =>
    let f := current_figure w in
    (set_figure {| figsize := figsize f; facecolor := c;
                   fig_axes := fig_axes f; fig_artists := fig_artists f |} w,
     Ok tt).

(** [fig.add_axes(pos)]: the handle of the new axes. *)
Definition fig_add_axes (pos : rect) : M E nat :=
  fun w =>
    let f := current_figure w in
    (set_figure {| figsize := figsize f; facecolor := facecolor f;
                   fig_axes := fig_axes f ++ [pos];
                   fig_artists := fig_artists f |} w,
     Ok (length (fig_axes f))).

(** [ax.set_xlim] and [ax.set_ylim] validate their arguments: a limit that
    is infinite or NaN is refused with a [ValueError], the lower limit being
    looked at first, and the axes are left as they were. The other calls
    that the program makes on an axes object take their arguments as they
    come. *)
Definition limits_error : exn :=
  Exn ValueError "Axis limits cannot be NaN or Inf".

Definition refused (c : ax_cmd) : option exn :=
  match c with
  | ax_set_xlim lo hi | ax_set_ylim lo hi =>
      if is_finite lo && is_finite hi then None else Some limits_error
  | _ => None
  end.

(** One call on the axes [ax]. *)
Definition draw (ax : nat) (c : ax_cmd) : M E unit :=
  fun w =>
    match refused c with
    | Some e => (w, Raise e)
    | None =>
        let f := current_figure w in
        (set_figure {| figsize := figsize f; facecolor := facecolor f;
                       fig_axes := fig_axes f;
                       fig_artists := fig_artists f ++ [(ax, c)] |} w,
         Ok tt)
    end.

(** [plt.savefig(path, **kw)]: the current figure is written to [path],
    unless the back end raises. *)
Definition plt_savefig (path : string) (kw : kwargs) : M E unit :=
  fun w =>
    match ext_savefig E path kw (current_figure w) with
    | None => (set_files (files w ++ [(path, current_figure w)]) w, Ok tt)
    | Some e => (w, Raise e)
    end.

Definition plt_show : M E unit :=
  fun w =>
    match ext_show E (current_figure w) with
    | None => (w, Ok tt)
    | Some e => (w, Raise e)
    end.

Definition print (line : string) : M E unit :=
  fun w => (set_console (console w ++ [line]) w, Ok tt).

End Library.

(** ** The program *)

Section Program.
Context {E : externals}.

(** *** [class EngineeringDrawing] *)

Definition get_default_drawing_info : gmap string pyval :=
  <["part_name" := PStr "PART NAME"]>
  (<["part_number" := PStr "PN-000-000"]>
  (<["material" := PStr "MATERIAL TBD"]>
  (<["scale" := PStr "1:1"]>
  (<["projection_method" := PStr "THIRD ANGLE"]>
  (<["drawing_number" := PStr "DWG-001"]>
  (<["revision" := PStr "A"]>
  (<["drawn_by" := PStr "ENGINEER"]>
  (<["checked_by" := PStr "CHECKER"]>
  (<["approved_by" := PStr "APPROVER"]>
  (<["date" := PStr (ext_today E)]>
  (<["company" := PStr "COMPANY NAME"]>
  (<["title" := PStr "ENGINEERING DRAWING"]>
  (<["units" := PStr "mm"]>
  (<["surface_finish" := PStr "3.2 μm"]>
  (<["tolerances" := PDict [("linear", "±0.1"); ("angular", "±0.5°")]]>
   ∅))))))))))))))).

(** Truth value of the [drawing_info] argument: [None] and the empty
    dictionary are false. *)
Definition truthy (drawing_info : option (gmap string pyval)) : bool :=
  match drawing_info with
  | None => false
  | Some d => negb (size d =? 0)%nat
  end.

(** [EngineeringDrawing(drawing_info).drawing_info], that is
    [drawing_info or self.get_default_drawing_info()]. *)
Definition EngineeringDrawing (drawing_info : option (gmap string pyval))
  : gmap string pyval :=
  match drawing_info with
  | Some d => if truthy drawing_info then d else get_default_drawing_info
  | None => get_default_drawing_info
  end.

(** *** Mesh loading, slicing, dimensions *)

Definition vneg (v : vec3) : vec3 :=
  let '(x, y, z) := v in ((- x)%float, (- y)%float, (- z)%float).


Definition vsub (a b : vec3) : vec3 :=
  let '(ax, ay, az) := a in
  let '(bx, by_, bz) := b in
  ((ax - bx)%float, (ay - by_)%float, (az - bz)%float).

Definition load_and_center_mesh (file_path : string) : M E nat :=
  mesh ← trimesh_load_mesh file_path;
  c ← mesh_center_mass mesh;
  mesh_apply_translation mesh (vneg c);;
  mret mesh.

Definition get_cross_section (mesh : nat) (origin normal : vec3)
  : M E (option Path2D) :=
  section ← mesh_section mesh origin normal;
  match section with
  | None => mret None
  | Some s => planar ← section_to_2D s; mret (Some (fst planar))
  end.

(** The dictionary returned by [get_mesh_dimensions]. *)
Record mesh_dimensions := {
  dim_length : float;
  dim_width : float;
  dim_height : float;
  dim_bounds : vec3 * vec3
}.

Definition get_mesh_dimensions (mesh : nat) : M E mesh_dimensions :=
  bounds ← mesh_bounds mesh;
  match bounds with
  | None =>
      raise (Exn TypeError "'NoneType' object is not subscriptable")
  | Some (lo, hi) =>
      let '(dx, dy, dz) := vsub hi lo in
      mret {| dim_length := dx; dim_width := dy; dim_height := dz;
              dim_bounds := (lo, hi) |}
  end.

(** *** Dimension annotations *)

Definition dashed : kwargs :=
  [("linestyle", KStr "--"); ("color", KStr "gray"); ("linewidth", KNum 0.8)].

Definition arrowprops : kwargs :=
  [("arrowstyle", KStr "<->"); ("color", KStr "blue"); ("linewidth", KNum 1)].

Definition add_dimension_annotations
  (ax : nat) (path2D : Path2D) (view_name : string) : M E unit :=
  let '(min_pt, max_pt) := path_bounds path2D in
  let width := (fst max_pt - fst min_pt)%float in
  let height := (snd max_pt - snd min_pt)%float in
  let offset := (py_max width height * 0.15)%float in
  let y_dim := (snd min_pt - offset)%float in
  draw ax (ax_plot [fst min_pt; fst min_pt] [snd min_pt; y_dim] None dashed);;
  draw ax (ax_plot [fst max_pt; fst max_pt] [snd max_pt; y_dim] None dashed);;
  draw ax (ax_annotate "" (fst min_pt, y_dim) (fst max_pt, y_dim) arrowprops);;
  draw ax (ax_text ((fst min_pt + fst max_pt) / 2)%float
                   (y_dim - offset * 0.1)%float
                   (PStr (format_2f width +:+ " mm"))
                   [("ha", KStr "center"); ("va", KStr "top");
                    ("fontsize", KNum 8); ("color", KStr "blue")]);;
  let x_dim := (fst max_pt + offset)%float in
  draw ax (ax_plot [x_dim; fst max_pt] [snd max_pt; snd max_pt] None dashed);;
  draw ax (ax_plot [x_dim; fst min_pt] [snd min_pt; snd min_pt] None dashed);;
  draw ax (ax_annotate "" (x_dim, snd min_pt) (x_dim, snd max_pt) arrowprops);;
  draw ax (ax_text (x_dim + offset * 0.1)%float
                   ((snd min_pt + snd max_pt) / 2)%float
                   (PStr (format_2f height +:+ " mm"))
                   [("ha", KStr "left"); ("va", KStr "center");
                    ("fontsize", KNum 8); ("color", KStr "blue");
                    ("rotation", KNum 90)]).

(** *** Outline rendering *)

Definition index_error : exn :=
  Exn IndexError "index 0 is out of bounds for axis 0 with size 0".

(** [path[0]] *)
Definition row0 (path : polyline) : result point :=
  match path with
  | p :: _ => Ok p
  | [] => Raise index_error
  end.

(** [path[-1]] *)
Definition row_last (path : polyline) : result point :=
  match last path with
  | Some p => Ok p
  | None => Raise index_error
  end.

Definition default_tol : float := 1e-2.

Definition is_path_closed (path : polyline) (tol : float) : result bool :=
  match row0 path with
  | Raise e => Raise e
  | Ok p0 =>
      match row_last path with
      | Raise e => Raise e
      | Ok pn => Ok (np_allclose tol p0 pn)
      end
  end.

(** The points handed to the path constructor: [path] itself, or
    [np.vstack([path, path[0]])] when the path is not closed. *)
Definition closing_points (path : polyline) : result polyline :=
  match is_path_closed path default_tol with
  | Raise e => Raise e
  | Ok closed =>
      if negb closed then
        match row0 path with
        | Raise e => Raise e
        | Ok p0 => Ok (path ++ [p0])%list
        end
      else Ok path
  end.

Definition outline_style : kwargs :=
  [("facecolor", KStr "none"); ("edgecolor", KStr "black"); ("lw", KNum 1.5)].

(** The body of the loop over [path2D.discrete]. *)
Definition plot_polyline (ax : nat) (path : polyline) : M E unit :=
  path ← lift (closing_points path);
  let codes :=
    ([MOVETO] ++ replicate (length path - 2) LINETO ++ [CLOSEPOLY])%list in
  poly_path ← lift (MplPath_new path codes);
  draw ax (ax_add_patch (PathPatch poly_path outline_style)).

Definition plot_cross_section
  (ax : nat) (path2D : option Path2D) (title : string) (show_dimensions : bool)
  : M E unit :=
  match path2D with
  | None =>
      draw ax (ax_set_title (title +:+ " (No section)")
                 [("fontsize", KNum 10); ("weight", KStr "bold")]);;
      draw ax (ax_axis "off")
  | Some path2D =>
      for_each (discrete path2D) (plot_polyline ax);;
      (if show_dimensions then add_dimension_annotations ax path2D title
       else mret tt);;
      let '(min_pt, max_pt) := path_bounds path2D in
      let padding :=
        (0.2 * py_max (fst max_pt - fst min_pt) (snd max_pt - snd min_pt))%float in
      draw ax (ax_set_xlim (fst min_pt - padding) (fst max_pt + padding));;
      draw ax (ax_set_ylim (snd min_pt - padding) (snd max_pt + padding));;
      draw ax (ax_set_aspect "equal");;
      draw ax (ax_axis "off")
  end.

End Program.

Arguments get_default_drawing_info E : clear implicits.
Arguments EngineeringDrawing E drawing_info : clear implicits.

(** ** Strings of Python values *)

(** [repr] of a dictionary of strings: its items in insertion order. *)
Definition dict_repr (items : list (string * string)) : string :=
  "{" +:+ String.concat ", "
            (map (fun kv => py_repr (fst kv) +:+ ": " +:+ py_repr (snd kv)) items)
      +:+ "}".

(** [format(v, '')], what an f-string inserts for [{v}]. *)
Definition py_format (v : pyval) : string :=
  match v with
  | PStr s => s
  | PDict items => dict_repr items
  end.

(** [v.upper()] *)
Definition py_upper {E : externals} (v : pyval) : result string :=
  match v with
  | PStr s => Ok (ext_upper E s)
  | PDict _ =>
      Raise (Exn AttributeError "'dict' object has no attribute 'upper'")
  end.

(** [v[k]] for a value of the metadata. *)
Definition py_subscript (v : pyval) (k : string) : result string :=
  match v with
  | PDict items =>
      match dict_get items k with
      | Some s => Ok s
      | None => Raise (key_error k)
      end
  | PStr _ => Raise (Exn TypeError "string indices must be integers, not 'str'")
  end.

(** [prefix + v] *)
Definition py_concat (prefix : string) (v : pyval) : result string :=
  match v with
  | PStr s => Ok (prefix +:+ s)
  | PDict _ =>
      Raise (Exn TypeError
               ("can only concatenate str (not " +:+ String double_quote "dict"
                +:+ String double_quote ") to str"))
  end.

(** An [int] used in float arithmetic. *)
Definition float_of_nat (n : nat) : float :=
  PrimFloat.of_uint63 (Uint63.of_Z (Z.of_nat n)).

Section Composers.
Context {E : externals}.

(** *** Title block *)

Definition text_field : Type := pyval * float * float * float * string.

Definition title_block_fields (drawing_info : gmap string pyval)
  : result (list text_field) :=
  match getitem drawing_info "company" with Raise e => Raise e | Ok company =>
  match getitem drawing_info "title" with Raise e => Raise e | Ok title =>
  match getitem drawing_info "part_name" with Raise e => Raise e | Ok part_name =>
  match getitem drawing_info "part_number" with Raise e => Raise e | Ok part_number =>
  match getitem drawing_info "material" with Raise e => Raise e | Ok material =>
  match getitem drawing_info "scale" with Raise e => Raise e | Ok scale =>
  match getitem drawing_info "projection_method" with Raise e => Raise e | Ok projection =>
  match getitem drawing_info "units" with Raise e => Raise e | Ok units =>
  match getitem drawing_info "drawn_by" with Raise e => Raise e | Ok drawn_by =>
  match getitem drawing_info "date" with Raise e => Raise e | Ok date =>
  match getitem drawing_info "drawing_number" with Raise e => Raise e | Ok drawing_number =>
  Ok [ (company, 5, 9, 12, "bold");
       (title, 5, 8.3, 10, "bold");
       (PStr "PART NAME:", 0.2, 7.3, 8, "bold");
       (part_name, 3.2, 7.3, 8, "normal");
       (PStr "PART NUMBER:", 6.2, 7.3, 8, "bold");
       (part_number, 6.2, 6.7, 8, "normal");
       (PStr "MATERIAL:", 0.2, 5.3, 8, "bold");
       (material, 3.2, 5.3, 8, "normal");
       (PStr "SCALE:", 6.2, 5.3, 8, "bold");
       (scale, 6.2, 4.7, 8, "normal");
       (PStr "PROJECTION:", 0.2, 3.3, 8, "bold");
       (projection, 3.2, 3.3, 8, "normal");
       (PStr "UNITS:", 6.2, 3.3, 8, "bold");
       (units, 6.2, 2.7, 8, "normal");
       (PStr "DRAWN BY:", 0.2, 1.3, 7, "bold");
       (drawn_by, 0.2, 0.7, 7, "normal");
       (PStr "DATE:", 3.2, 1.3, 7, "bold");
       (date, 3.2, 0.7, 7, "normal");
       (PStr "DWG NO:", 6.2, 1.3, 7, "bold");
       (drawing_number, 6.2, 0.7, 7, "normal") ]%float
  end end end end end end end end end end end.

Definition create_title_block (drawing_info : gmap string pyval) : M E unit :=
  let tb_width := 0.35%float in
  let tb_height := 0.25%float in
  let tb_x := (1 - tb_width - 0.05)%float in
  let tb_y := 0.02%float in
  title_block_ax ← fig_add_axes (tb_x, tb_y, tb_width, tb_height);
  draw title_block_ax (ax_set_xlim 0 10);;
  draw title_block_ax (ax_set_ylim 0 10);;
  draw title_block_ax (ax_axis "off");;
  draw title_block_ax
    (ax_add_patch (Rectangle (0, 0)%float 10 10
       [("linewidth", KNum 2); ("edgecolor", KStr "black");
        ("facecolor", KStr "none")]));;
  for_each [2; 4; 6; 8]%float (fun y =>
    draw title_block_ax
      (ax_plot [0; 10]%float [y; y] (Some "k-") [("linewidth", KNum 1)]));;
  for_each [3; 6]%float (fun x =>
    draw title_block_ax
      (ax_plot [x; x] [0; 6]%float (Some "k-") [("linewidth", KNum 1)]));;
  fields ← lift (title_block_fields drawing_info);
  for_each fields (fun '(text, x, y, fontsize, weight) =>
    draw title_block_ax
      (ax_text x y text
         [("fontsize", KNum fontsize); ("weight", KStr weight);
          ("ha", KStr (if PrimFloat.ltb x 5 then "left" else "left"));
          ("va", KStr "center")])).

(** *** Notes *)

Definition notes_lines (drawing_info : gmap string pyval)
  : result (list string) :=
  match getitem drawing_info "units" with Raise e => Raise e | Ok units =>
  match py_upper units with Raise e => Raise e | Ok units_upper =>
  match getitem drawing_info "tolerances" with Raise e => Raise e | Ok tol =>
  match py_subscript tol "linear" with Raise e => Raise e | Ok linear =>
  match getitem drawing_info "tolerances" with Raise e => Raise e | Ok tol' =>
  match py_subscript tol' "angular" with Raise e => Raise e | Ok angular =>
  match getitem drawing_info "surface_finish" with Raise e => Raise e | Ok finish =>
  match getitem drawing_info "material" with Raise e => Raise e | Ok material =>
  match py_concat "5. MATERIAL: " material with Raise e => Raise e | Ok note5 =>
  Ok [ "1. ALL DIMENSIONS IN " +:+ units_upper;
       "2. UNLESS OTHERWISE SPECIFIED:";
       "   LINEAR TOL: " +:+ linear;
       "   ANGULAR TOL: " +:+ angular;
       "3. SURFACE FINISH: " +:+ py_format finish;
       "4. REMOVE ALL BURRS AND SHARP EDGES";
       note5 ]
  end end end end end end end end end.

(** [for i, note in enumerate(notes): body i note] *)
Fixpoint for_enumerate {A} (i : nat) (l : list A) (body : nat -> A -> M E unit)
  : M E unit :=
  match l with
  | [] => mret tt
  | x :: l' => body i x;; for_enumerate (S i) l' body
  end.

Definition create_notes_section (drawing_info : gmap string pyval) : M E unit :=
  notes_ax ← fig_add_axes (0.05, 0.02, 0.4, 0.25)%float;
  draw notes_ax (ax_set_xlim 0 10);;
  draw notes_ax (ax_set_ylim 0 10);;
  draw notes_ax (ax_axis "off");;
  draw notes_ax
    (ax_add_patch (Rectangle (0, 0)%float 10 10
       [("linewidth", KNum 1.5); ("edgecolor", KStr "black");
        ("facecolor", KStr "none")]));;
  draw notes_ax
    (ax_text 5 9 (PStr "GENERAL NOTES")
       [("fontsize", KNum 10); ("weight", KStr "bold"); ("ha", KStr "center")]);;
  draw notes_ax
    (ax_plot [0; 10]%float [8.5; 8.5]%float (Some "k-") [("linewidth", KNum 1)]);;
  notes ← lift (notes_lines drawing_info);
  for_enumerate 0 notes (fun i note =>
    draw notes_ax
      (ax_text 0.2 (7.5 - float_of_nat i * 0.7) (PStr note)
         [("fontsize", KNum 8); ("ha", KStr "left"); ("va", KStr "center")])).

End Composers.

Section Orchestrator.
Context {E : externals}.

(** *** Layout presets *)

Definition one_view : list rect := [(0.15, 0.4, 0.3, 0.4)]%float.

Definition two_views : list rect :=
  [(0.1, 0.4, 0.25, 0.4); (0.4, 0.4, 0.25, 0.4)]%float.

Definition three_views : list rect :=
  [(0.05, 0.4, 0.25, 0.4); (0.35, 0.4, 0.25, 0.4); (0.65, 0.4, 0.25, 0.4)]%float.

(** The [if n_views == 1 ... elif n_views == 2 ... else] chain. *)
Definition view_positions (n_views : nat) : list rect :=
  if (n_views =? 1)%nat then one_view
  else if (n_views =? 2)%nat then two_views
  else three_views.

(** [py_zip(a, b)]: as long as the shorter argument. *)
Fixpoint py_zip {A B} (a : list A) (b : list B) : list (A * B) :=
  match a, b with
  | x :: a', y :: b' => (x, y) :: py_zip a' b'
  | _, _ => []
  end.

(** The body of the loop over the views. *)
Definition render_view (mesh : nat) (show_dimensions : bool)
  (item : string * plane * rect) : M E unit :=
  let '((title, plane), pos) := item in
  ax ← fig_add_axes pos;
  origin ← lift (getitem plane "origin");
  normal ← lift (getitem plane "normal");
  path2D ← get_cross_section mesh origin normal;
  plot_cross_section ax path2D title show_dimensions.

Definition savefig_options : kwargs :=
  [("dpi", KNum 300); ("bbox_inches", KStr "tight");
   ("facecolor", KStr "white"); ("edgecolor", KStr "none")].

(** The body of [create_engineering_drawing] up to the outer border: the
    figure as it stands when it is saved. *)
Definition compose_figure
  (mesh : nat) (views : views_t) (drawing_info : option (gmap string pyval))
  (show_dimensions : bool) : M E unit :=
  let eng_drawing := EngineeringDrawing E drawing_info in
  mesh_dims ← get_mesh_dimensions mesh;
  plt_figure (16, 11)%float;;
  fig_set_facecolor "white";;
  let n_views := length views in
  for_each (py_zip views (view_positions n_views))
           (render_view mesh show_dimensions);;
  create_title_block eng_drawing;;
  create_notes_section eng_drawing;;
  border_ax ← fig_add_axes (0, 0, 1, 1)%float;
  draw border_ax (ax_set_xlim 0 1);;
  draw border_ax (ax_set_ylim 0 1);;
  draw border_ax (ax_axis "off");;
  draw border_ax
    (ax_add_patch (Rectangle (0.02, 0.02)%float 0.96 0.96
       [("linewidth", KNum 3); ("edgecolor", KStr "black");
        ("facecolor", KStr "none")])).

Definition create_engineering_drawing
  (mesh : nat) (views : views_t) (drawing_info : option (gmap string pyval))
  (output_path : string) (show_dimensions : bool) : M E string :=
  compose_figure mesh views drawing_info show_dimensions;;
  plt_savefig output_path savefig_options;;
  plt_show;;
  mret output_path.

(** *** The script *)

Definition STL_FILE : string := "ball-bearing.stl".
Definition OUTPUT_FILE : string := "engineering_drawing.png".

Definition drawing_info : gmap string pyval :=
  <["part_name" := PStr "BALL BEARING"]>
  (<["part_number" := PStr "BB-6000-2RS"]>
  (<["material" := PStr "CHROME STEEL"]>
  (<["scale" := PStr "2:1"]>
  (<["projection_method" := PStr "THIRD ANGLE"]>
  (<["drawing_number" := PStr "DWG-BB-001"]>
  (<["revision" := PStr "A"]>
  (<["drawn_by" := PStr "J. SMITH"]>
  (<["checked_by" := PStr "M. JOHNSON"]>
  (<["approved_by" := PStr "R. WILSON"]>
  (<["date" := PStr (ext_today E)]>
  (<["company" := PStr "PRECISION BEARINGS INC."]>
  (<["title" := PStr "BALL BEARING ASSEMBLY"]>
  (<["units" := PStr "mm"]>
  (<["surface_finish" := PStr "1.6 μm"]>
  (<["tolerances" := PDict [("linear", "±0.05"); ("angular", "±0.25°")]]>
   ∅))))))))))))))).

Definition mk_plane (origin normal : vec3) : plane :=
  <["origin" := origin]> (<["normal" := normal]> ∅).

Definition slicing_planes : views_t :=
  [ ("FRONT VIEW", mk_plane (0, 0, 0) (0, 1, 0));
    ("TOP VIEW", mk_plane (0, 0, 0) (0, 0, 1));
    ("RIGHT VIEW", mk_plane (0, 0, 0) (1, 0, 0)) ]%float.

Definition newline : string := String (ascii_of_nat 10) EmptyString.

(** The [try] block of the script. *)
Definition main_body : M E unit :=
  mesh ← load_and_center_mesh STL_FILE;
  result ← create_engineering_drawing
             mesh slicing_planes (Some drawing_info) OUTPUT_FILE true;
  print ("✅ Engineering drawing saved to: " +:+ result);;
  dims ← get_mesh_dimensions mesh;
  print (newline +:+ "📐 Part Dimensions:");;
  print ("   Length: " +:+ format_2f (dim_length dims) +:+ " mm");;
  print ("   Width:  " +:+ format_2f (dim_width dims) +:+ " mm");;
  print ("   Height: " +:+ format_2f (dim_height dims) +:+ " mm").

(** The two [except] clauses, tried in order. *)
Definition main_handler (e : exn) : M E unit :=
  if exn_class_eqb (exn_cls e) FileNotFoundError then
    print ("❌ STL file '" +:+ STL_FILE
           +:+ "' not found. Please check the file path.")
  else
    print ("❌ Error: " +:+ exn_str e).

Definition main : M E unit := try_except main_body main_handler.

End Orchestrator.

Arguments drawing_info E : clear implicits.

(** ** A small instance of the externals: axis-aligned boxes

    A mesh is the box between two corners; a plane through the box with an
    axis-aligned normal cuts a rectangle out of it, returned as one closed
    polyline. The instance runs the program on concrete inputs. *)

Module Box.

Definition box : Type := vec3 * vec3.

(** The letters [a] to [z] in upper case: [str.upper()] on ASCII text. *)
Definition upper_ascii (c : ascii) : ascii :=
  let n := nat_of_ascii c in
  if ((97 <=? n) && (n <=? 122))%nat then ascii_of_nat (n - 32) else c.

Fixpoint upper (s : string) : string :=
  match s with
  | EmptyString => EmptyString
  | String c s' => String (upper_ascii c) (upper s')
  end.

Definition center_mass (b : box) : vec3 :=
  let '((x0, y0, z0), (x1, y1, z1)) := b in
  ((x0 + x1) / 2, (y0 + y1) / 2, (z0 + z1) / 2)%float.

Definition apply_translation (b : box) (t : vec3) : box :=
  let '((x0, y0, z0), (x1, y1, z1)) := b in
  let '(tx, ty, tz) := t in
  ((x0 + tx, y0 + ty, z0 + tz), (x1 + tx, y1 + ty, z1 + tz))%float.

Definition rectangle (u0 v0 u1 v1 : float) : Path2D :=
  {| discrete := [[(u0, v0); (u1, v0); (u1, v1); (u0, v1); (u0, v0)]];
     path_bounds := ((u0, v0), (u1, v1)) |}.

Definition between (lo x hi : float) : bool :=
  PrimFloat.leb lo x && PrimFloat.leb x hi.

Definition section (b : box) (origin normal : vec3) : result (option Path2D) :=
  let '((x0, y0, z0), (x1, y1, z1)) := b in
  let '(ox, oy, oz) := origin in
  let '(nx, ny, nz) := normal in
  if PrimFloat.eqb nx 0 && PrimFloat.eqb nz 0 && negb (PrimFloat.eqb ny 0) then
    Ok (if between y0 oy y1 then Some (rectangle x0 z0 x1 z1) else None)
  else if PrimFloat.eqb nx 0 && PrimFloat.eqb ny 0 && negb (PrimFloat.eqb nz 0) then
    Ok (if between z0 oz z1 then Some (rectangle x0 y0 x1 y1) else None)
  else if PrimFloat.eqb ny 0 && PrimFloat.eqb nz 0 && negb (PrimFloat.eqb nx 0) then
    Ok (if between x0 ox x1 then Some (rectangle y0 z0 y1 z1) else None)
  else Ok None.

(** [trimesh.load_mesh] on a path that names no file raises a
    [ValueError]. *)
Definition missing_file (path : string) : exn :=
  Exn ValueError ("string is not a file: " +:+ path).

(** The file system holds at most one mesh file, read by any path; the
    back end fails as [save_error] and [show_error] say. *)
Definition externals_of
  (file : option box) (save_error show_error : option exn) : externals :=
  {| Mesh := box;
     Path3D := Path2D;
     Transform := unit;
     ext_load_mesh := fun path =>
       match file with
       | Some b => Ok b
       | None => Raise (missing_file path)
       end;
     ext_center_mass := center_mass;
     ext_apply_translation := apply_translation;
     ext_bounds := fun b => Some b;
     ext_section := section;
     ext_to_2D := fun p => Ok (p, tt);
     ext_savefig := fun _ _ _ => save_error;
     ext_show := fun _ => show_error;
     ext_today := "2024-01-01";
     ext_upper := upper |}.

Definition empty_figure : figure :=
  {| figsize := (6.4, 4.8)%float; facecolor := "white";
     fig_axes := []; fig_artists := [] |}.

Definition initial_world (E : externals) : world E :=
  World [] empty_figure [] [].

(** A cube of side 10 stored away from the origin. *)
Definition cube : box := ((5, 5, 5), (15, 15, 15))%float.

End Box.

(** ** What a run leaves behind

    The effect of the rendering functions, as pure functions of their
    arguments: the lists of artists they put on an axes object. The lemmas of
    the second part relate them to the program. *)

Section Effects.
Context {E : externals}.

(** The world after more calls on axes of the current figure. *)
Definition add_artists (l : list (nat * ax_cmd)) (w : world E) : world E :=
  let f := current_figure w in
  set_figure {| figsize := figsize f; facecolor := facecolor f;
                fig_axes := fig_axes f;
                fig_artists := (fig_artists f ++ l)%list |} w.

Definition emit (ax : nat) (cmds : list ax_cmd) (w : world E) : world E :=
  add_artists (map (pair ax) cmds) w.

(** The world after [fig.add_axes(pos)]. *)
Definition add_axes (pos : rect) (w : world E) : world E :=
  let f := current_figure w in
  set_figure {| figsize := figsize f; facecolor := facecolor f;
                fig_axes := (fig_axes f ++ [pos])%list;
                fig_artists := fig_artists f |} w.

(** Two worlds that differ in the current figure only. *)
Definition same_outside_figure (w w' : world E) : Prop :=
  meshes w' = meshes w /\ files w' = files w /\ console w' = console w.


(** An exception that ends a run, or none. *)
Definition outcome (r : option exn) : result unit :=
  match r with
  | None => Ok tt
  | Some e => Raise e
  end.

(** The eight artists of [add_dimension_annotations]. *)
Definition dimension_artists (path2D : Path2D) : list ax_cmd :=
  let '(min_pt, max_pt) := path_bounds path2D in
  let width := (fst max_pt - fst min_pt)%float in
  let height := (snd max_pt - snd min_pt)%float in
  let offset := (py_max width height * 0.15)%float in
  let y_dim := (snd min_pt - offset)%float in
  let x_dim := (fst max_pt + offset)%float in
  [ ax_plot [fst min_pt; fst min_pt] [snd min_pt; y_dim] None dashed;
    ax_plot [fst max_pt; fst max_pt] [snd max_pt; y_dim] None dashed;
    ax_annotate "" (fst min_pt, y_dim) (fst max_pt, y_dim) arrowprops;
    ax_text ((fst min_pt + fst max_pt) / 2)%float (y_dim - offset * 0.1)%float
      (PStr (format_2f width +:+ " mm"))
      [("ha", KStr "center"); ("va", KStr "top");
       ("fontsize", KNum 8); ("color", KStr "blue")];
    ax_plot [x_dim; fst max_pt] [snd max_pt; snd max_pt] None dashed;
    ax_plot [x_dim; fst min_pt] [snd min_pt; snd min_pt] None dashed;
    ax_annotate "" (x_dim, snd min_pt) (x_dim, snd max_pt) arrowprops;
    ax_text (x_dim + offset * 0.1)%float ((snd min_pt + snd max_pt) / 2)%float
      (PStr (format_2f height +:+ " mm"))
      [("ha", KStr "left"); ("va", KStr "center");
       ("fontsize", KNum 8); ("color", KStr "blue"); ("rotation", KNum 90)] ].

(** The plot limits, the aspect ratio and the hidden axes that end a panel. *)
Definition limits_artists (path2D : Path2D) : list ax_cmd :=
  let '(min_pt, max_pt) := path_bounds path2D in
  let padding :=
    (0.2 * py_max (fst max_pt - fst min_pt) (snd max_pt - snd min_pt))%float in
  [ ax_set_xlim (fst min_pt - padding) (fst max_pt + padding);
    ax_set_ylim (snd min_pt - padding) (snd max_pt + padding);
    ax_set_aspect "equal";
    ax_axis "off" ].

(** The calls of [cmds] that an axes object takes, up to the first one that
    it refuses, and that refusal. *)
Fixpoint accepted (cmds : list ax_cmd) : list ax_cmd * option exn :=
  match cmds with
  | [] => ([], None)
  | c :: cmds' =>
      match refused c with
      | Some e => ([], Some e)
      | None => let '(cs, r) := accepted cmds' in (c :: cs, r)
      end
  end.

(** The four plot limits of a panel are finite numbers: [set_xlim] and
    [set_ylim] take them. *)
Definition finite_limits (path2D : Path2D) : bool :=
  let '(min_pt, max_pt) := path_bounds path2D in
  let padding :=
    (0.2 * py_max (fst max_pt - fst min_pt) (snd max_pt - snd min_pt))%float in
  is_finite (fst min_pt - padding) && is_finite (fst max_pt + padding)
  && is_finite (snd min_pt - padding) && is_finite (snd max_pt + padding).

(** The closed polygon drawn for a sequence of points. *)
Definition outline_patch (pts : polyline) : ax_cmd :=
  ax_add_patch
    (PathPatch
       {| vertices := pts;
          codes := ([MOVETO] ++ replicate (length pts - 2) LINETO
                    ++ [CLOSEPOLY])%list |}
       outline_style).

(** The points of the polygon as the specification words them: the polyline
    itself when its first and last points pass the closure test, and the
    polyline followed by a copy of its first point otherwise. *)
Definition closed_vertices (path : polyline) : polyline :=
  match head path, last path with
  | Some p0, Some pn =>
      if np_allclose default_tol p0 pn then path else (path ++ [p0])%list
  | _, _ => path
  end.

(** The artist of one polyline, or the exception that drawing it raises. *)
Definition polyline_artist (path : polyline) : result ax_cmd :=
  match closing_points path with
  | Raise e => Raise e
  | Ok pts =>
      match MplPath_new pts
              ([MOVETO] ++ replicate (length pts - 2) LINETO ++ [CLOSEPOLY])%list
      with
      | Raise e => Raise e
      | Ok poly_path => Ok (ax_add_patch (PathPatch poly_path outline_style))
      end
  end.

(** The artists of the polylines drawn before the first failure, and that
    failure. *)
Fixpoint outline_artists (l : list polyline) : list ax_cmd * option exn :=
  match l with
  | [] => ([], None)
  | path :: l' =>
      match polyline_artist path with
      | Raise e => ([], Some e)
      | Ok c => let '(cs, r) := outline_artists l' in (c :: cs, r)
      end
  end.

(** Everything [plot_cross_section] puts on its axes, and how it ends: with
    the exception of the first polyline that cannot be drawn, with the
    refusal of a plot limit, or normally. *)
Definition panel_artists
  (path2D : option Path2D) (title : string) (show_dimensions : bool)
  : list ax_cmd * option exn :=
  match path2D with
  | None =>
      ([ ax_set_title (title +:+ " (No section)")
           [("fontsize", KNum 10); ("weight", KStr "bold")];
         ax_axis "off" ], None)
  | Some p =>
      match outline_artists (discrete p) with
      | (cs, Some e) => (cs, Some e)
      | (cs, None) =>
          let '(ls, r) := accepted (limits_artists p) in
          ((cs ++ (if show_dimensions then dimension_artists p else [])
               ++ ls)%list, r)
      end
  end.

(** The result of [get_cross_section] on the mesh [m]. *)
Definition cross_section_of (m : Mesh E) (origin normal : vec3)
  : result (option Path2D) :=
  match ext_section E m origin normal with
  | Raise e => Raise e
  | Ok None => Ok None
  | Ok (Some s) =>
      match ext_to_2D E s with
      | Raise e => Raise e
      | Ok planar => Ok (Some (fst planar))
      end
  end.

(** One view of the drawing: the artists of its panel and how rendering it
    ends. *)
Definition view_artists (m : Mesh E) (show_dimensions : bool)
  (title : string) (pl : plane) : list ax_cmd * option exn :=
  match getitem pl "origin" with
  | Raise e => ([], Some e)
  | Ok origin =>
      match getitem pl "normal" with
      | Raise e => ([], Some e)
      | Ok normal =>
          match cross_section_of m origin normal with
          | Raise e => ([], Some e)
          | Ok path2D => panel_artists path2D title show_dimensions
          end
      end
  end.

(** The keys of the metadata that the title block and the notes read. *)
Definition consumed_keys : list string :=
  [ "company"; "title"; "part_name"; "part_number"; "material"; "scale";
    "projection_method"; "units"; "drawn_by"; "date"; "drawing_number";
    "tolerances"; "surface_finish" ].

(** The keys that the title block reads. *)
Definition title_block_keys : list string :=
  [ "company"; "title"; "part_name"; "part_number"; "material"; "scale";
    "projection_method"; "units"; "drawn_by"; "date"; "drawing_number" ].

(** The two composers, in the order the orchestrator calls them. *)
Definition compose_metadata (drawing_info : gmap string pyval) : M E unit :=
  create_title_block drawing_info;; create_notes_section drawing_info.

End Effects.

Section Measures.
Context {E : externals}.

(** The result of [get_mesh_dimensions] on a mesh object, if the reference
    names one. *)
Definition dimensions_of (m : option (Mesh E)) : result mesh_dimensions :=
  match m with
  | None => Raise invalid_reference
  | Some m =>
      match ext_bounds E m with
      | None => Raise (Exn TypeError "'NoneType' object is not subscriptable")
      | Some (lo, hi) =>
          let '(dx, dy, dz) := vsub hi lo in
          Ok {| dim_length := dx; dim_width := dy; dim_height := dz;
                dim_bounds := (lo, hi) |}
      end
  end.

(** The lines the script prints after a successful run. *)
Definition success_report (out : string) (dims : mesh_dimensions) : list string :=
  [ "✅ Engineering drawing saved to: " +:+ out;
    newline +:+ "📐 Part Dimensions:";
    "   Length: " +:+ format_2f (dim_length dims) +:+ " mm";
    "   Width:  " +:+ format_2f (dim_width dims) +:+ " mm";
    "   Height: " +:+ format_2f (dim_height dims) +:+ " mm" ].

(** The line the script prints when the [try] block raises [e]. *)
Definition failure_report (e : exn) : string :=
  match exn_cls e with
  | FileNotFoundError =>
      "❌ STL file 'ball-bearing.stl' not found. Please check the file path."
  | _ => "❌ Error: " +:+ exn_str e
  end.

End Measures.

Section Panels.
Context {E : externals}.

(** The world after one more panel: new axes at [pos] carrying [cmds]. *)
Definition add_panel (pos : rect) (cmds : list ax_cmd) (w : world E) : world E :=
  emit (length (fig_axes (current_figure w))) cmds (add_axes pos w).

(** A panel of the figure: the region of its axes and the artists on it. *)
Definition panel : Type := rect * list ax_cmd.

Definition add_panels (ps : list panel) (w : world E) : world E :=
  foldl (fun w p => add_panel (fst p) (snd p) w) w ps.

(** The figure that holds the panels [ps], created in this order on a new
    figure. *)
Definition drawing_figure (ps : list panel) : figure :=
  {| figsize := (16, 11)%float; facecolor := "white";
     fig_axes := map fst ps;
     fig_artists := concat (imap (fun i p => map (pair i) (snd p)) ps) |}.

(** The loop over the views: one panel per item, up to and including the
    first one whose rendering raises. *)
Fixpoint view_panels (m : Mesh E) (show_dimensions : bool)
  (items : list (string * plane * rect)) : list panel * option exn :=
  match items with
  | [] => ([], None)
  | (title, pl, pos) :: rest =>
      let p := (pos, fst (view_artists m show_dimensions title pl)) in
      match snd (view_artists m show_dimensions title pl) with
      | Some e => ([p], Some e)
      | None =>
          let '(ps, r) := view_panels m show_dimensions rest in (p :: ps, r)
      end
  end.

Definition title_block_rect : rect := (1 - 0.35 - 0.05, 0.02, 0.35, 0.25)%float.

(** Border and dividers of the title block. *)
Definition title_block_frame : list ax_cmd :=
  [ ax_set_xlim 0 10; ax_set_ylim 0 10; ax_axis "off";
    ax_add_patch (Rectangle (0, 0)%float 10 10
      [("linewidth", KNum 2); ("edgecolor", KStr "black");
       ("facecolor", KStr "none")]) ]
  ++ map (fun y => ax_plot [0; 10]%float [y; y] (Some "k-") [("linewidth", KNum 1)])
         [2; 4; 6; 8]%float
  ++ map (fun x => ax_plot [x; x] [0; 6]%float (Some "k-") [("linewidth", KNum 1)])
         [3; 6]%float.

Definition title_block_text (f : text_field) : ax_cmd :=
  let '(text, x, y, fontsize, weight) := f in
  ax_text x y text
    [("fontsize", KNum fontsize); ("weight", KStr weight);
     ("ha", KStr (if PrimFloat.ltb x 5 then "left" else "left"));
     ("va", KStr "center")].

Definition notes_rect : rect := (0.05, 0.02, 0.4, 0.25)%float.

(** Border and heading of the notes. *)
Definition notes_frame : list ax_cmd :=
  [ ax_set_xlim 0 10; ax_set_ylim 0 10; ax_axis "off";
    ax_add_patch (Rectangle (0, 0)%float 10 10
      [("linewidth", KNum 1.5); ("edgecolor", KStr "black");
       ("facecolor", KStr "none")]);
    ax_text 5 9 (PStr "GENERAL NOTES")
      [("fontsize", KNum 10); ("weight", KStr "bold"); ("ha", KStr "center")];
    ax_plot [0; 10]%float [8.5; 8.5]%float (Some "k-") [("linewidth", KNum 1)] ].

Definition note_text (i : nat) (note : string) : ax_cmd :=
  ax_text 0.2 (7.5 - float_of_nat i * 0.7) (PStr note)
    [("fontsize", KNum 8); ("ha", KStr "left"); ("va", KStr "center")].

Definition border_rect : rect := (0, 0, 1, 1)%float.

Definition border_artists : list ax_cmd :=
  [ ax_set_xlim 0 1; ax_set_ylim 0 1; ax_axis "off";
    ax_add_patch (Rectangle (0.02, 0.02)%float 0.96 0.96
      [("linewidth", KNum 3); ("edgecolor", KStr "black");
       ("facecolor", KStr "none")]) ].

(** The panels of the drawing in the order of their creation, and the
    exception that ends the composition, if any. *)
Definition drawing_panels (m : Mesh E) (views : views_t)
  (d : gmap string pyval) (show_dimensions : bool) : list panel * option exn :=
  match view_panels m show_dimensions
          (py_zip views (view_positions (length views))) with
  | (vps, Some e) => (vps, Some e)
  | (vps, None) =>
      match title_block_fields d with
      | Raise e => (vps ++ [(title_block_rect, title_block_frame)], Some e)
      | Ok fields =>
          let tb := (title_block_rect,
                     title_block_frame ++ map title_block_text fields) in
          match notes_lines d with
          | Raise e => (vps ++ [tb; (notes_rect, notes_frame)], Some e)
          | Ok notes =>
              (vps ++ [tb; (notes_rect, notes_frame ++ imap note_text notes);
                       (border_rect, border_artists)], None)
          end
      end
  end.

(** The panel of one item of the loop. *)
Definition view_panel (m : Mesh E) (dims : bool) (item : string * plane * rect) : panel :=
  (snd item, fst (view_artists m dims (fst (fst item)) (snd (fst item)))).

Definition view_renders (m : Mesh E) (dims : bool) (view : string * plane) : Prop :=
  snd (view_artists m dims (fst view) (snd view)) = None.

(** The title block, the notes and the outer border: the three panels that
    follow the views. *)
Definition closing_panels (fields : list text_field) (notes : list string)
  : list panel :=
  [ (title_block_rect, title_block_frame ++ map title_block_text fields);
    (notes_rect, notes_frame ++ imap note_text notes);
    (border_rect, border_artists) ].

(** The figure of a drawing whose views all render. *)
Definition finished_figure (m : Mesh E) (dims : bool) (views : views_t)
  (fields : list text_field) (notes : list string) : figure :=
  drawing_figure
    (map (view_panel m dims) (py_zip views (view_positions (length views)))
     ++ closing_panels fields notes).

End Panels.

(** [preserves R m]: a run of [m] takes every world to an [R]-related one,
    whether it returns or raises. *)
Definition preserves {E : externals} {A}
  (R : world E -> world E -> Prop) (m : M E A) : Prop :=
  forall w, R w (fst (m w)).

(** ** Inputs for the examples *)

Definition cube_section : Path2D := Box.rectangle (-5) (-5) 5 5.

Definition open_square : Path2D :=
  {| discrete := [[(0, 0); (4, 0); (4, 4); (0, 4)]%float];
     path_bounds := ((0, 0), (4, 4))%float |}.

(** A polyline whose ends lie 0.015 apart in [x], at [x] near 1000. *)
Definition nearly_closed : Path2D :=
  {| discrete := [[(1000.015, 0); (1500, 300); (1000, 0)]%float];
     path_bounds := ((1000, 0), (1500, 300))%float |}.

(** A world that holds the centred cube as mesh [0]. *)
Definition cube_world (E : externals) (centred : Mesh E) : world E :=
  set_meshes [centred] (Box.initial_world E).

Definition centred_cube : Box.box := ((-5, -5, -5), (5, 5, 5))%float.

(** Two outlines that are not square: 4 by 2, and 2 by 4. *)
Definition wide_outline : Path2D :=
  {| discrete := [[(0, 0); (4, 0); (4, 2); (0, 2); (0, 0)]%float];
     path_bounds := ((0, 0), (4, 2))%float |}.

Definition tall_outline : Path2D :=
  {| discrete := [[(0, 0); (2, 0); (2, 4); (0, 4); (0, 0)]%float];
     path_bounds := ((0, 0), (2, 4))%float |}.

(** The two dimension arrows on an axes object, by their end points. *)
Definition dimension_arrows (ax : nat) (f : figure) : list (point * point) :=
  omap (fun a =>
          match snd a with
          | ax_annotate _ xy xytext _ =>
              if (fst a =? ax)%nat then Some (xy, xytext) else None
          | _ => None
          end)
       (fig_artists f).

(** An outline so wide that its width overflows: [1e308 - (-1e308)] is
    infinite in binary64. *)
Definition huge_outline : Path2D :=
  {| discrete :=
       [[(-1e308, 0); (1e308, 0); (1e308, 1); (-1e308, 1); (-1e308, 0)]%float];
     path_bounds := ((-1e308, 0), (1e308, 1))%float |}.


Definition four_views : views_t :=
  slicing_planes ++ [("BACK VIEW", mk_plane (0, 0, 0) (0, -1, 0))%float].

(** The dimension labels of a figure: the blue texts, with their axes. *)
Definition dimension_labels (f : figure) : list (nat * pyval) :=
  omap (fun a =>
          match snd a with
          | ax_text _ _ s (_ :: _ :: _ :: ("color", KStr "blue") :: _) =>
              Some (fst a, s)
          | _ => None
          end)
       (fig_artists f).

(** Metadata that names the part only. *)
Definition part_name_only : gmap string pyval := {[ "part_name" := PStr "BRACKET" ]}.


(** ** Vocabulary of the further properties *)

(** The artists that [add_dimension_annotations] draws: lines, arrows and
    text. *)
Definition is_dimension_artist (c : ax_cmd) : bool :=
  match c with
  | ax_plot _ _ _ _ | ax_annotate _ _ _ _ | ax_text _ _ _ _ => true
  | _ => false
  end.


(** A point without NaN coordinate. *)
Definition no_nan (p : point) : bool :=
  negb (PrimFloat.is_nan (fst p)) && negb (PrimFloat.is_nan (snd p)).

Section Slicing.
Context {E : externals}.

(** The plane [pl] has both keys, and trimesh slices the mesh [m] along it
    without raising, into nothing or into an outline that can be drawn: its
    polylines have two points or more and its plot limits are finite. *)
Definition well_sliced (m : Mesh E) (pl : plane) : Prop :=
  exists origin normal,
    pl !! "origin" = Some origin /\ pl !! "normal" = Some normal /\
    (ext_section E m origin normal = Ok None
     \/ exists s p t,
          ext_section E m origin normal = Ok (Some s)
          /\ ext_to_2D E s = Ok (p, t)
          /\ Forall (fun path => 2 <= length path) (discrete p)
          /\ finite_limits p = true).


End Slicing.

(** A plane given by its origin only. *)
Definition plane_without_normal : plane := <["origin" := (0, 0, 0)%float]> ∅.


(** Externals whose only mesh has no vertex: it has no bounds and no plane
    meets it. *)
Definition empty_mesh_externals : externals :=
  {| Mesh := unit;
     Path3D := Path2D;
     Transform := unit;
     ext_load_mesh := fun _ => Ok tt;
     ext_center_mass := fun _ => (nan, nan, nan);
     ext_apply_translation := fun m _ => m;
     ext_bounds := fun _ => None;
     ext_section := fun _ _ _ => Ok None;
     ext_to_2D := fun p => Ok (p, tt);
     ext_savefig := fun _ _ _ => None;
     ext_show := fun _ => None;
     ext_today := "2024-01-01";
     ext_upper := Box.upper |}.

(** * Properties *)

(** ** The [.2f] format on examples *)

Example format_2f_ten : format_2f 10 = "10.00".
Proof. vm_compute. reflexivity. Qed.

Example format_2f_tie_even : format_2f 0.125 = "0.12" /\ format_2f 0.375 = "0.38".
Proof. vm_compute. split; reflexivity. Qed.

Example format_2f_inexact : format_2f 2.675 = "2.67" /\ format_2f 1234.5678 = "1234.57".
Proof. vm_compute. split; reflexivity. Qed.

Example format_2f_small_negative : format_2f (-0.001) = "-0.00".
Proof. vm_compute. reflexivity. Qed.

(** The numeral that [format_2f] prints is the multiple of 0.01 nearest to
    the value, and it has two digits after the point. *)

Lemma round_half_even_div_nearest (num den : Z) :
  (0 < den)%Z ->
  (Z.abs (2 * (round_half_even_div num den * den - num)) <= den)%Z.
Proof.
  intros Hden. unfold round_half_even_div.
  pose proof (Z.div_mod num den ltac:(lia)) as Hdm.
  pose proof (Z.mod_pos_bound num den Hden) as Hr.
  destruct (Z.compare_spec (2 * (num mod den)) den) as [Heq|Hlt|Hgt].
  - destruct (Z.even (num / den)); nia.
  - nia.
  - nia.
Qed.

Lemma hundredths_nearest (m : positive) (e : Z) :
  (e < 0)%Z ->
  (Z.abs (2 * (hundredths m e * 2 ^ (- e) - Z.pos m * 100)) <= 2 ^ (- e))%Z.
Proof.
  intros He. unfold hundredths.
  destruct (Z.leb_spec 0 e); [lia|].
  apply round_half_even_div_nearest. apply Z.pow_pos_nonneg; lia.
Qed.

Lemma two_digits_length (k : Z) :
  (0 <= k < 100)%Z -> String.length (two_digits k) = 2.
Proof.
  intros Hk. replace k with (Z.of_nat (Z.to_nat k)) by lia.
  assert (Hn : Z.to_nat k < 100) by lia. revert Hn.
  generalize (Z.to_nat k). intros n Hn.
  do 100 (destruct n as [|n]; [reflexivity|]). lia.
Qed.

Lemma format_2f_finite (x : float) (s : bool) (m : positive) (e : Z) :
  Prim2SF x = S754_finite s m e ->
  let n := hundredths m e in
  format_2f x = (if s then "-" else "") +:+ decimal (n / 100) +:+ "."
                +:+ two_digits (n mod 100)
  /\ String.length (two_digits (n mod 100)) = 2.
Proof.
  intros Hx n. unfold format_2f. rewrite Hx. split; [reflexivity|].
  apply two_digits_length. apply Z.mod_pos_bound. lia.
Qed.


(** ** Running the monad *)

Section Running.
Context {E : externals}.
Implicit Types (w : world E).

Lemma bind_run {A B} (m : M E A) (k : A -> M E B) w :
  (m ≫= k) w =
  match m w with
  | (w', Ok a) => k a w'
  | (w', Raise e) => (w', Raise e)
  end.
Proof. reflexivity. Qed.

Lemma lift_bind {A B} (r : result A) (k : A -> M E B) w :
  (lift r ≫= k) w =
  match r with
  | Ok a => k a w
  | Raise e => (w, Raise e)
  end.
Proof. destruct r; reflexivity. Qed.

Lemma add_artists_nil w : add_artists [] w = w.
Proof.
  destruct w as [ms [sz fc axs arts] fs c]. unfold add_artists. simpl.
  by rewrite app_nil_r.
Qed.

Lemma add_artists_app l1 l2 w :
  add_artists l2 (add_artists l1 w) = add_artists (l1 ++ l2) w.
Proof. unfold add_artists, set_figure. simpl. by rewrite app_assoc. Qed.

Lemma emit_nil ax w : emit ax [] w = w.
Proof. apply add_artists_nil. Qed.

Lemma emit_app ax l1 l2 w : emit ax l2 (emit ax l1 w) = emit ax (l1 ++ l2) w.
Proof. unfold emit. by rewrite add_artists_app, map_app. Qed.

Lemma draw_run ax c w :
  refused c = None -> draw ax c w = (emit ax [c] w, Ok tt).
Proof. intros Hc. unfold draw. by rewrite Hc. Qed.

Lemma draw_refused ax c e w : refused c = Some e -> draw ax c w = (w, Raise e).
Proof. intros Hc. unfold draw. by rewrite Hc. Qed.

Lemma draw_bind {B} ax c (k : unit -> M E B) w :
  refused c = None -> (draw ax c ≫= k) w = k tt (emit ax [c] w).
Proof. intros Hc. by rewrite bind_run, draw_run. Qed.

Lemma draw_refused_bind {B} ax c e (k : unit -> M E B) w :
  refused c = Some e -> (draw ax c ≫= k) w = (w, Raise e).
Proof. intros Hc. by rewrite bind_run, (draw_refused _ _ e). Qed.


(** *** The dimension annotator and the view renderer *)

Lemma add_dimension_annotations_run ax p view w :
  add_dimension_annotations ax p view w = (emit ax (dimension_artists p) w, Ok tt).
Proof.
  unfold add_dimension_annotations, dimension_artists.
  destruct (path_bounds p) as [min_pt max_pt]. cbv zeta.
  repeat (rewrite draw_bind by reflexivity). rewrite draw_run by reflexivity.
  repeat rewrite emit_app. reflexivity.
Qed.

Lemma plot_polyline_run ax path w :
  plot_polyline ax path w =
  match polyline_artist path with
  | Ok c => (emit ax [c] w, Ok tt)
  | Raise e => (w, Raise e)
  end.
Proof.
  unfold plot_polyline, polyline_artist. rewrite lift_bind.
  destruct (closing_points path) as [pts|e]; [|reflexivity].
  rewrite lift_bind. by destruct (MplPath_new _ _).
Qed.

Lemma polyline_loop_run ax l w :
  for_each l (plot_polyline ax) w =
  (emit ax (fst (outline_artists l)) w, outcome (snd (outline_artists l))).
Proof.
  revert w. induction l as [|path l IH]; intros w; simpl.
  - by rewrite emit_nil.
  - unfold bind. rewrite plot_polyline_run.
    destruct (polyline_artist path) as [c|e]; simpl.
    + rewrite IH. destruct (outline_artists l) as [cs r]. simpl.
      by rewrite emit_app.
    + by rewrite emit_nil.
Qed.

(** Four calls in a row, as they end [plot_cross_section]. *)
Lemma draw_four ax a b c d w :
  (draw ax a;; draw ax b;; draw ax c;; draw ax d) w
  = (emit ax (fst (accepted [a; b; c; d])) w,
     outcome (snd (accepted [a; b; c; d]))).
Proof.
  cbn [accepted].
  destruct (refused a) as [e|] eqn:Ha.
  { rewrite (draw_refused_bind _ _ e) by done. by rewrite emit_nil. }
  rewrite draw_bind by done.
  destruct (refused b) as [e|] eqn:Hb.
  { by rewrite (draw_refused_bind _ _ e) by done. }
  rewrite draw_bind by done.
  destruct (refused c) as [e|] eqn:Hc.
  { rewrite (draw_refused_bind _ _ e) by done. by rewrite emit_app. }
  rewrite draw_bind by done.
  destruct (refused d) as [e|] eqn:Hd.
  { rewrite (draw_refused _ _ e) by done. by rewrite !emit_app. }
  rewrite draw_run by done. by rewrite !emit_app.
Qed.

Lemma plot_cross_section_run ax o title dims w :
  plot_cross_section ax o title dims w =
  (emit ax (fst (panel_artists o title dims)) w,
   outcome (snd (panel_artists o title dims))).
Proof.
  destruct o as [p|]; cbn [plot_cross_section panel_artists].
  - rewrite bind_run, polyline_loop_run.
    destruct (outline_artists (discrete p)) as [cs [e|]]; cbn [fst snd outcome];
      [reflexivity|].
    unfold limits_artists. destruct (path_bounds p) as [min_pt max_pt] eqn:Hb.
    rewrite bind_run.
    assert (Hdims : (if dims then add_dimension_annotations ax p title else mret tt)
                      (emit ax cs w)
                    = (emit ax (cs ++ (if dims then dimension_artists p else [])) w,
                       Ok tt)).
    { destruct dims.
      - by rewrite add_dimension_annotations_run, emit_app.
      - by rewrite app_nil_r. }
    rewrite Hdims. cbv zeta. rewrite draw_four.
    destruct (accepted _) as [ls r]. cbn [fst snd].
    by rewrite emit_app, <- app_assoc.
  - rewrite draw_bind by reflexivity. rewrite draw_run by reflexivity.
    by rewrite emit_app.
Qed.

End Running.

(** ** Outlines: closing a polyline *)

Lemma MplPath_new_polygon (pts : polyline) :
  2 <= length pts ->
  MplPath_new pts ([MOVETO] ++ replicate (length pts - 2) LINETO ++ [CLOSEPOLY])
  = Ok {| vertices := pts;
          codes := [MOVETO] ++ replicate (length pts - 2) LINETO ++ [CLOSEPOLY] |}.
Proof.
  intros Hlen. unfold MplPath_new.
  assert (Hcodes : length ([MOVETO] ++ replicate (length pts - 2) LINETO
                           ++ [CLOSEPOLY]) = length pts).
  { rewrite !length_app, length_replicate. simpl. lia. }
  rewrite Hcodes, Nat.eqb_refl. reflexivity.
Qed.

Lemma closing_points_spec (path : polyline) :
  path <> [] -> closing_points path = Ok (closed_vertices path).
Proof.
  intros Hne. unfold closing_points, closed_vertices, is_path_closed, row_last.
  destruct path as [|p0 rest]; [done|]. simpl head. simpl row0.
  destruct (last (p0 :: rest)) as [pn|] eqn:Hlast.
  - simpl. destruct (np_allclose default_tol p0 pn); reflexivity.
  - by apply last_None in Hlast.
Qed.

Lemma closed_vertices_length (path : polyline) :
  length path <= length (closed_vertices path).
Proof.
  unfold closed_vertices.
  destruct (head path), (last path); try lia.
  destruct (np_allclose _ _ _); rewrite ?length_app; simpl; lia.
Qed.

Lemma polyline_artist_closed (path : polyline) :
  2 <= length path ->
  polyline_artist path = Ok (outline_patch (closed_vertices path)).
Proof.
  intros Hlen. unfold polyline_artist.
  rewrite closing_points_spec by (destruct path; simpl in *; [lia|done]).
  rewrite MplPath_new_polygon; [reflexivity|].
  pose proof (closed_vertices_length path). lia.
Qed.

Lemma outline_artists_closed (l : list polyline) :
  Forall (fun path => 2 <= length path) l ->
  outline_artists l = (map (fun path => outline_patch (closed_vertices path)) l, None).
Proof.
  induction 1 as [|path l Hlen _ IH]; simpl; [reflexivity|].
  by rewrite polyline_artist_closed, IH.
Qed.

(** The plot limits: all four are set when they are finite, and the first
    one that is not stops the panel. *)
Lemma accepted_limits (p : Path2D) :
  finite_limits p = true -> accepted (limits_artists p) = (limits_artists p, None).
Proof.
  unfold finite_limits, limits_artists.
  destruct (path_bounds p) as [min_pt max_pt]. cbv zeta.
  intros [[[Hx0 Hx1]%andb_prop Hy0]%andb_prop Hy1]%andb_prop.
  cbn [accepted refused]. by rewrite Hx0, Hx1, Hy0, Hy1.
Qed.

Lemma accepted_limits_refused (p : Path2D) :
  finite_limits p = false ->
  snd (accepted (limits_artists p)) = Some limits_error
  /\ (fst (accepted (limits_artists p)) = []
      \/ exists lo hi, fst (accepted (limits_artists p)) = [ax_set_xlim lo hi]).
Proof.
  unfold finite_limits, limits_artists.
  destruct (path_bounds p) as [min_pt max_pt]. cbv zeta.
  cbn [accepted refused]. intros Hfin.
  destruct (is_finite (fst min_pt - _) && is_finite (fst max_pt + _)) eqn:Hx;
    [|by auto].
  simpl in Hfin.
  destruct (is_finite (snd min_pt - _) && is_finite (snd max_pt + _)) eqn:Hy.
  - done.
  - split; [done|]. right. by do 2 eexists.
Qed.

(** A polyline without points, and a polyline of one point, cannot be drawn:
    [path[0]] and the path constructor raise. *)
Example empty_polyline_raises :
  polyline_artist [] = Raise index_error.
Proof. reflexivity. Qed.

Example single_point_raises :
  exists msg, polyline_artist [(1, 2)%float] = Raise (Exn ValueError msg).
Proof. eexists. vm_compute. reflexivity. Qed.

(** C2 (as amended): for every outline whose polylines have at least two
    points, [plot_cross_section] draws one polygon per polyline, boundary only
    ([facecolor] is [none]); its points are the polyline unchanged when the
    first and last point pass the closure test of the code, which is
    [np.allclose] with [atol = 1e-2] and the default [rtol = 1e-5] (per
    coordinate, the ends differ by at most [1e-2 + 1e-5 * |last|] and [last]
    is finite, or they are equal), and the polyline followed by exactly one
    copy of its first point otherwise. The polygons are on the axes however
    the call ends: after them come the dimensions, when asked for, and the
    plot limits, which end the call with a [ValueError] when one of them is
    not finite. *)
Theorem C2_polyline_closed_by_one_point
  {E : externals} (ax : nat) (p : Path2D) (title : string) (dims : bool)
  (w : world E) :
  Forall (fun path => 2 <= length path) (discrete p) ->
  plot_cross_section ax (Some p) title dims w =
    (emit ax
       (map (fun path =>
               ax_add_patch
                 (PathPatch
                    {| vertices := closed_vertices path;
                       codes := [MOVETO]
                                ++ replicate (length (closed_vertices path) - 2) LINETO
                                ++ [CLOSEPOLY] |}
                    [("facecolor", KStr "none"); ("edgecolor", KStr "black");
                     ("lw", KNum 1.5)]))
            (discrete p)
        ++ (if dims then dimension_artists p else [])
        ++ fst (accepted (limits_artists p))) w,
     outcome (snd (accepted (limits_artists p))))
  /\ (finite_limits p = true ->
      accepted (limits_artists p) = (limits_artists p, None))
  /\ Forall (fun path =>
       exists p0 pn,
         head path = Some p0 /\ last path = Some pn /\
         is_path_closed path default_tol
         = Ok (np_isclose 1e-5 1e-2 (fst p0) (fst pn)
               && np_isclose 1e-5 1e-2 (snd p0) (snd pn)) /\
         (is_path_closed path default_tol = Ok true ->
          closed_vertices path = path) /\
         (is_path_closed path default_tol = Ok false ->
          closed_vertices path = (path ++ [p0])%list))
      (discrete p).
Proof.
  intros Hlen. split; [|split].
  - rewrite plot_cross_section_run. cbn [panel_artists].
    rewrite outline_artists_closed by done.
    by destruct (accepted (limits_artists p)).
  - apply accepted_limits.
  - eapply Forall_impl; [exact Hlen|]. intros path Hpath.
    destruct path as [|p0 rest]; [simpl in Hpath; lia|].
    destruct (last (p0 :: rest)) as [pn|] eqn:Hlast;
      [|by apply last_None in Hlast].
    exists p0, pn. split; [done|]. split; [done|].
    unfold is_path_closed, row_last, closed_vertices. simpl row0. simpl head.
    rewrite Hlast. change (head (p0 :: rest)) with (Some p0).
    split; [reflexivity|].
    split; intros [= Hclosed]; rewrite Hclosed; reflexivity.
Qed.

Lemma C2_polyline_closed_by_one_point_witness :
  let E := Box.externals_of None None None in
  (plot_cross_section 0 (Some open_square) "TOP VIEW" false (Box.initial_world E)
   = (emit 0
        (outline_patch [(0, 0); (4, 0); (4, 4); (0, 4); (0, 0)]%float
         :: limits_artists open_square) (Box.initial_world E), Ok tt))
  /\ (plot_cross_section 0 (Some cube_section) "TOP VIEW" false (Box.initial_world E)
      = (emit 0
           (outline_patch [(-5, -5); (5, -5); (5, 5); (-5, 5); (-5, -5)]%float
            :: limits_artists cube_section) (Box.initial_world E), Ok tt)).
Proof.
  intros E. split.
  - refine (proj1 (C2_polyline_closed_by_one_point
                     0 open_square "TOP VIEW" false (Box.initial_world E) _)).
    repeat constructor.
  - refine (proj1 (C2_polyline_closed_by_one_point
                     0 cube_section "TOP VIEW" false (Box.initial_world E) _)).
    repeat constructor.
Defined.

(** The same gap of 0.015 near the origin is not within the tolerance: the
    polyline is closed by a copy of its first point. *)
Example gap_near_origin_is_closed :
  closing_points [(0.015, 0); (500, 300); (0, 0)]%float
  = Ok [(0.015, 0); (500, 300); (0, 0); (0.015, 0)]%float.
Proof. vm_compute. reflexivity. Qed.

(** C2 (as stated) fails: the ends of this polyline differ by more than 1e-2
    in their first coordinate, and yet no closing point is appended, because
    [np.allclose] adds [rtol * |last|] to the tolerance. *)
Lemma C2_counterexample :
  let E := Box.externals_of None None None in
  PrimFloat.ltb 1e-2 (abs (1000.015 - 1000)) = true
  /\ plot_cross_section 0 (Some nearly_closed) "TOP VIEW" false (Box.initial_world E)
     = (emit 0
          (outline_patch [(1000.015, 0); (1500, 300); (1000, 0)]%float
           :: limits_artists nearly_closed) (Box.initial_world E), Ok tt).
Proof. vm_compute. split; reflexivity. Qed.

(** ** Frames: what an action leaves alone *)

Section Preserving.
Context {E : externals}.
Variable R : world E -> world E -> Prop.
Hypothesis R_refl : forall w, R w w.
Hypothesis R_trans : forall w1 w2 w3, R w1 w2 -> R w2 w3 -> R w1 w3.

Lemma preserves_ret {A} (a : A) : preserves R (mret a : M E A).
Proof. intros w. apply R_refl. Qed.

Lemma preserves_lift {A} (r : result A) : preserves R (lift r : M E A).
Proof. intros w. apply R_refl. Qed.

Lemma preserves_raise {A} (e : exn) : preserves R (raise e : M E A).
Proof. intros w. apply R_refl. Qed.

Lemma preserves_bind {A B} (m : M E A) (k : A -> M E B) :
  preserves R m -> (forall a, preserves R (k a)) -> preserves R (m ≫= k).
Proof.
  intros Hm Hk w. rewrite bind_run. specialize (Hm w).
  destruct (m w) as [w' [a|e]]; simpl in *; [|done].
  eapply R_trans; [exact Hm|apply Hk].
Qed.

Lemma preserves_for_each {A} (l : list A) (body : A -> M E unit) :
  (forall x, preserves R (body x)) -> preserves R (for_each l body).
Proof.
  intros Hbody. induction l as [|x l IH]; simpl.
  - apply (preserves_ret tt).
  - apply (preserves_bind (body x) (fun _ => for_each l body)); auto.
Qed.

Lemma preserves_for_enumerate {A} (l : list A) (body : nat -> A -> M E unit) i :
  (forall j x, preserves R (body j x)) -> preserves R (for_enumerate i l body).
Proof.
  intros Hbody. revert i. induction l as [|x l IH]; intros i; simpl.
  - apply (preserves_ret tt).
  - apply preserves_bind; auto.
Qed.

Lemma preserves_deref (mesh : nat) : preserves R (deref (E := E) mesh).
Proof. intros w. unfold deref. destruct (meshes w !! mesh); apply R_refl. Qed.

Lemma preserves_get_cross_section mesh origin normal :
  preserves R (get_cross_section (E := E) mesh origin normal).
Proof.
  unfold get_cross_section, mesh_section, section_to_2D.
  apply preserves_bind.
  - apply preserves_bind; [apply preserves_deref|intros; apply preserves_lift].
  - intros [s|]; [|apply preserves_ret].
    apply preserves_bind; [apply preserves_lift|intros; apply preserves_ret].
Qed.

Lemma preserves_get_mesh_dimensions mesh :
  preserves R (get_mesh_dimensions (E := E) mesh).
Proof.
  unfold get_mesh_dimensions, mesh_bounds.
  apply preserves_bind.
  - apply preserves_bind; [apply preserves_deref|intros; apply preserves_ret].
  - intros [[lo hi]|]; [|apply preserves_raise].
    destruct (vsub hi lo) as [[dx dy] dz]. apply preserves_ret.
Qed.

End Preserving.

Section FigureFrames.
Context {E : externals}.
Variable R : world E -> world E -> Prop.
Hypothesis R_refl : forall w, R w w.
Hypothesis R_trans : forall w1 w2 w3, R w1 w2 -> R w2 w3 -> R w1 w3.
Hypothesis R_figure : forall w f, R w (set_figure f w).

Lemma preserves_draw ax c : preserves R (draw (E := E) ax c).
Proof.
  intros w. unfold draw. destruct (refused c); [apply R_refl|apply R_figure].
Qed.

Lemma preserves_fig_add_axes pos : preserves R (fig_add_axes (E := E) pos).
Proof. intros w. apply R_figure. Qed.

Lemma preserves_plt_figure size : preserves R (plt_figure (E := E) size).
Proof. intros w. apply R_figure. Qed.

Lemma preserves_fig_set_facecolor c : preserves R (fig_set_facecolor (E := E) c).
Proof. intros w. apply R_figure. Qed.

Lemma preserves_plot_cross_section ax o title dims :
  preserves R (plot_cross_section (E := E) ax o title dims).
Proof. intros w. rewrite plot_cross_section_run. apply R_figure. Qed.

Lemma preserves_render_view mesh dims item :
  preserves R (render_view (E := E) mesh dims item).
Proof.
  destruct item as [[title pl] pos]. unfold render_view.
  apply preserves_bind; auto using preserves_fig_add_axes. intros ax.
  apply preserves_bind; auto using preserves_lift. intros origin.
  apply preserves_bind; auto using preserves_lift. intros normal.
  apply preserves_bind; auto using preserves_get_cross_section. intros o.
  apply preserves_plot_cross_section.
Qed.

Lemma preserves_create_title_block d :
  preserves R (create_title_block (E := E) d).
Proof.
  unfold create_title_block. cbv zeta.
  apply preserves_bind; auto using preserves_fig_add_axes. intros ax.
  repeat (apply preserves_bind; [assumption|apply preserves_draw|intros _]).
  apply preserves_bind; [assumption| |intros _].
  { apply preserves_for_each; auto using preserves_draw. }
  apply preserves_bind; [assumption| |intros _].
  { apply preserves_for_each; auto using preserves_draw. }
  apply preserves_bind; auto using preserves_lift. intros fields.
  apply preserves_for_each; auto.
  intros [[[[text x] y] fontsize] weight]. apply preserves_draw.
Qed.

Lemma preserves_create_notes_section d :
  preserves R (create_notes_section (E := E) d).
Proof.
  unfold create_notes_section.
  apply preserves_bind; auto using preserves_fig_add_axes. intros ax.
  repeat (apply preserves_bind; [assumption|apply preserves_draw|intros _]).
  apply preserves_bind; auto using preserves_lift. intros notes.
  apply preserves_for_enumerate; auto using preserves_draw.
Qed.

Lemma preserves_compose_figure mesh views di dims :
  preserves R (compose_figure (E := E) mesh views di dims).
Proof.
  unfold compose_figure. cbv zeta.
  apply preserves_bind; auto using preserves_get_mesh_dimensions. intros _.
  apply preserves_bind; auto using preserves_plt_figure. intros _.
  apply preserves_bind; auto using preserves_fig_set_facecolor. intros _.
  apply preserves_bind; [assumption| |intros _].
  { apply preserves_for_each; auto using preserves_render_view. }
  apply preserves_bind; auto using preserves_create_title_block. intros _.
  apply preserves_bind; auto using preserves_create_notes_section. intros _.
  apply preserves_bind; auto using preserves_fig_add_axes. intros ax.
  repeat (apply preserves_bind; [assumption|apply preserves_draw|intros _]).
  apply preserves_draw.
Qed.

End FigureFrames.

(** ** The mesh is translated once *)



Section MeshFrames.
Context {E : externals}.
Implicit Types (w : world E).

Lemma same_outside_figure_refl w : same_outside_figure w w.
Proof. done. Qed.

Lemma same_outside_figure_trans w1 w2 w3 :
  same_outside_figure w1 w2 -> same_outside_figure w2 w3 ->
  same_outside_figure w1 w3.
Proof. intros (?&?&?) (?&?&?). repeat split; congruence. Qed.

Lemma same_outside_figure_set_figure w f : same_outside_figure w (set_figure f w).
Proof. done. Qed.

Lemma load_and_center_mesh_run file_path w :
  load_and_center_mesh file_path w =
  match ext_load_mesh E file_path with
  | Raise e => (w, Raise e)
  | Ok m =>
      (set_meshes
         (meshes w ++ [ext_apply_translation E m (vneg (ext_center_mass E m))]) w,
       Ok (length (meshes w)))
  end.
Proof.
  unfold load_and_center_mesh, trimesh_load_mesh. rewrite bind_run.
  destruct (ext_load_mesh E file_path) as [m|e]; [|reflexivity].
  assert (Hnew : (meshes w ++ [m]) !! length (meshes w) = Some m)
    by (by apply list_lookup_middle).
  unfold mesh_center_mass, mesh_apply_translation, deref, store.
  rewrite !bind_run. cbn [meshes set_meshes]. rewrite Hnew.
  cbn [mret M_ret ret]. rewrite !bind_run. cbn [meshes set_meshes].
  rewrite Hnew. unfold set_meshes. cbn [meshes]. f_equal. f_equal.
  rewrite insert_app_r_alt by done. by rewrite Nat.sub_diag.
Qed.



Lemma compose_figure_outside mesh views di dims w :
  same_outside_figure w (fst (compose_figure mesh views di dims w)).
Proof.
  apply preserves_compose_figure;
    auto using same_outside_figure_refl, same_outside_figure_set_figure.
  apply same_outside_figure_trans.
Qed.

Lemma create_engineering_drawing_run mesh views di out dims w :
  create_engineering_drawing mesh views di out dims w =
  match compose_figure mesh views di dims w with
  | (w1, Raise e) => (w1, Raise e)
  | (w1, Ok _) =>
      match ext_savefig E out savefig_options (current_figure w1) with
      | Some e => (w1, Raise e)
      | None =>
          let w2 := set_files (files w1 ++ [(out, current_figure w1)]) w1 in
          match ext_show E (current_figure w1) with
          | Some e => (w2, Raise e)
          | None => (w2, Ok out)
          end
      end
  end.
Proof.
  unfold create_engineering_drawing. rewrite bind_run.
  destruct (compose_figure mesh views di dims w) as [w1 [[]|e]]; [|reflexivity].
  rewrite bind_run. unfold plt_savefig.
  destruct (ext_savefig E out savefig_options (current_figure w1)); [reflexivity|].
  rewrite bind_run. unfold plt_show. simpl.
  destruct (ext_show E (current_figure w1)); reflexivity.
Qed.


End MeshFrames.

(** ** The script *)

Section Script.
Context {E : externals}.
Implicit Types (w : world E).

Lemma get_mesh_dimensions_run mesh w :
  get_mesh_dimensions mesh w = (w, dimensions_of (meshes w !! mesh)).
Proof.
  unfold get_mesh_dimensions, mesh_bounds, deref, dimensions_of.
  rewrite !bind_run. destruct (meshes w !! mesh) as [m|]; [|reflexivity].
  simpl. destruct (ext_bounds E m) as [[lo hi]|]; [|reflexivity].
  by destruct (vsub hi lo) as [[dx dy] dz].
Qed.

Lemma compose_figure_measures mesh views di dims w w1 :
  compose_figure mesh views di dims w = (w1, Ok tt) ->
  exists d, dimensions_of (meshes w !! mesh) = Ok d.
Proof.
  unfold compose_figure. cbv zeta. rewrite bind_run, get_mesh_dimensions_run.
  destruct (dimensions_of (meshes w !! mesh)) as [d|e]; [eauto|done].
Qed.

Lemma main_handler_run e w :
  main_handler e w = (set_console (console w ++ [failure_report e]) w, Ok tt).
Proof.
  unfold main_handler, failure_report, print.
  by destruct (exn_cls e).
Qed.

Lemma main_body_run w :
  main_body w =
  match load_and_center_mesh STL_FILE w with
  | (w1, Raise e) => (w1, Raise e)
  | (w1, Ok mesh) =>
      match create_engineering_drawing
              mesh slicing_planes (Some (drawing_info E)) OUTPUT_FILE true w1
      with
      | (w2, Raise e) => (w2, Raise e)
      | (w2, Ok out) =>
          match dimensions_of (meshes w2 !! mesh) with
          | Raise e =>
              (set_console
                 (console w2 ++ ["✅ Engineering drawing saved to: " +:+ out]) w2,
               Raise e)
          | Ok dims =>
              (set_console (console w2 ++ success_report out dims) w2, Ok tt)
          end
      end
  end.
Proof.
  unfold main_body. rewrite bind_run.
  destruct (load_and_center_mesh STL_FILE w) as [w1 [mesh|e]]; [|reflexivity].
  rewrite bind_run.
  destruct (create_engineering_drawing _ _ _ _ _ w1) as [w2 [out|e]];
    [|reflexivity].
  rewrite bind_run. unfold print at 1. cbn beta iota.
  rewrite bind_run, get_mesh_dimensions_run. cbn [meshes set_console].
  destruct (dimensions_of (meshes w2 !! mesh)) as [d|e]; [|reflexivity].
  unfold success_report, print, set_console. rewrite !bind_run. simpl.
  by rewrite <- !app_assoc.
Qed.

End Script.

Section ScriptOutcomes.
Context {E : externals}.
Implicit Types (w : world E).

Lemma main_run w :
  main w =
  match main_body w with
  | (wb, Ok a) => (wb, Ok a)
  | (wb, Raise e) => (set_console (console wb ++ [failure_report e]) wb, Ok tt)
  end.
Proof.
  unfold main, try_except.
  destruct (main_body w) as [wb [a|e]]; [reflexivity|apply main_handler_run].
Qed.

(** How the [try] block ends: with the report printed and the image saved,
    or with an exception and nothing printed; in the second case the image
    has been saved only if the exception is the one [plt.show()] raised. *)
Lemma main_body_outcomes w :
  match main_body w with
  | (wb, Ok _) =>
      exists fig dims,
        dimensions_of (meshes wb !! length (meshes w)) = Ok dims /\
        files wb = files w ++ [(OUTPUT_FILE, fig)] /\
        console wb = console w ++ success_report OUTPUT_FILE dims
  | (wb, Raise e) =>
      console wb = console w /\
      (files wb = files w \/
       exists fig,
         files wb = files w ++ [(OUTPUT_FILE, fig)] /\ ext_show E fig = Some e)
  end
  /\ meshes (fst (main_body w)) = meshes (fst (load_and_center_mesh STL_FILE w)).
Proof.
  rewrite main_body_run.
  destruct (load_and_center_mesh STL_FILE w) as [w1 [mesh|e]] eqn:Hload.
  2:{ rewrite load_and_center_mesh_run in Hload.
      destruct (ext_load_mesh E STL_FILE); [done|].
      injection Hload as <- <-. auto. }
  assert (Hw1 : files w1 = files w /\ console w1 = console w
                /\ mesh = length (meshes w)).
  { rewrite load_and_center_mesh_run in Hload.
    destruct (ext_load_mesh E STL_FILE); [|done].
    by injection Hload as <- <-. }
  destruct Hw1 as (Hfiles & Hconsole & ->).
  rewrite create_engineering_drawing_run.
  pose proof (compose_figure_outside (length (meshes w)) slicing_planes
                (Some (drawing_info E)) true w1) as (Hm & Hf & Hc).
  destruct (compose_figure _ _ _ _ w1) as [w2 [[]|e]] eqn:Hcompose;
    simpl in Hm, Hf, Hc; simpl fst.
  2:{ split; [|done]. split; [congruence|]. left. congruence. }
  apply compose_figure_measures in Hcompose as [d Hd].
  destruct (ext_savefig E _ _ _) as [e|].
  { split; [|done]. split; [congruence|]. left. congruence. }
  cbv zeta. destruct (ext_show E (current_figure w2)) as [e|] eqn:Hshow.
  { split; [|done]. split; [simpl; congruence|]. right.
    exists (current_figure w2). simpl. by rewrite Hf, Hfiles. }
  cbn [meshes set_files]. rewrite Hm, Hd. split; [|done].
  exists (current_figure w2), d. cbn [meshes files console set_console set_files].
  rewrite Hm, Hd, Hf, Hc, Hfiles, Hconsole. done.
Qed.

(** The script stage by stage: loading, composing the figure, saving it,
    showing it, and the report. The first stage that raises decides the
    message, and the image is in the files from the moment [plt.savefig]
    has returned. *)
Lemma main_stages w :
  match ext_load_mesh E STL_FILE with
  | Raise e => main w = (set_console (console w ++ [failure_report e]) w, Ok tt)
  | Ok m0 =>
      match compose_figure (length (meshes w)) slicing_planes
              (Some (drawing_info E)) true
              (fst (load_and_center_mesh STL_FILE w))
      with
      | (w2, Raise e) =>
          main w = (set_console (console w ++ [failure_report e]) w2, Ok tt)
          /\ files w2 = files w
      | (w2, Ok _) =>
          let fig := current_figure w2 in
          let w3 := set_files (files w ++ [(OUTPUT_FILE, fig)]) w2 in
          match ext_savefig E OUTPUT_FILE savefig_options fig, ext_show E fig with
          | Some e, _ =>
              main w = (set_console (console w ++ [failure_report e]) w2, Ok tt)
              /\ files w2 = files w
          | None, Some e =>
              main w = (set_console (console w ++ [failure_report e]) w3, Ok tt)
          | None, None =>
              exists dims,
                main w
                = (set_console (console w ++ success_report OUTPUT_FILE dims) w3,
                   Ok tt)
          end
      end
  end.
Proof.
  rewrite main_run, main_body_run, load_and_center_mesh_run.
  destruct (ext_load_mesh E STL_FILE) as [m0|e]; [|reflexivity].
  cbn [fst]. set (w1 := set_meshes _ w).
  rewrite create_engineering_drawing_run.
  pose proof (compose_figure_outside (length (meshes w)) slicing_planes
                (Some (drawing_info E)) true w1) as (Hm & Hf & Hc).
  destruct (compose_figure _ _ _ _ w1) as [w2 [[]|e]] eqn:Hcompose;
    cbn [fst] in Hm, Hf, Hc.
  2:{ rewrite Hc. split; [reflexivity|exact Hf]. }
  apply compose_figure_measures in Hcompose as [d Hd].
  destruct (ext_savefig E _ _ _) as [e|].
  { rewrite Hc. split; [reflexivity|exact Hf]. }
  cbv zeta. rewrite Hf.
  destruct (ext_show E (current_figure w2)) as [e|].
  { cbn [console set_files]. by rewrite Hc. }
  cbn [meshes console set_files]. rewrite Hm, Hd, Hc. by exists d.
Qed.

End ScriptOutcomes.

(** C8 (as amended): the script ends in one of three ways and never raises.
    Either the whole [try] block completes: the image has been saved under
    the output path and the success message with the three dimensions is
    printed. Or the block raises [FileNotFoundError] and the file-not-found
    message is printed; or it raises any other exception [e] and a generic
    message holding [str(e)] is printed. The image is written by
    [plt.savefig], which runs when the figure is composed and before
    [plt.show()]: a failure of loading or of composing the figure leaves no
    image, and so does a [plt.savefig] that raises; when [plt.show()] raises,
    the image is there although an error is reported. *)
Theorem C8_script_outcomes {E : externals} (w : world E) :
  exists w',
    main w = (w', Ok tt) /\
    match main_body w with
    | (wb, Ok _) =>
        w' = wb /\
        exists fig dims,
          dimensions_of (meshes wb !! length (meshes w)) = Ok dims /\
          files w' = files w ++ [(OUTPUT_FILE, fig)] /\
          console w' =
            console w ++
            [ "✅ Engineering drawing saved to: " +:+ OUTPUT_FILE;
              newline +:+ "📐 Part Dimensions:";
              "   Length: " +:+ format_2f (dim_length dims) +:+ " mm";
              "   Width:  " +:+ format_2f (dim_width dims) +:+ " mm";
              "   Height: " +:+ format_2f (dim_height dims) +:+ " mm" ]
    | (wb, Raise e) =>
        console w' =
          console w ++
          [ match exn_cls e with
            | FileNotFoundError =>
                "❌ STL file 'ball-bearing.stl' not found. Please check the file path."
            | _ => "❌ Error: " +:+ exn_str e
            end ] /\
        (files w' = files w \/
         exists fig,
           files w' = files w ++ [(OUTPUT_FILE, fig)] /\
           ext_show E fig = Some e)
    end /\
    match ext_load_mesh E STL_FILE with
    | Raise e =>
        files w' = files w /\ console w' = console w ++ [failure_report e]
    | Ok m0 =>
        match compose_figure (length (meshes w)) slicing_planes
                (Some (drawing_info E)) true
                (fst (load_and_center_mesh STL_FILE w))
        with
        | (_, Raise e) =>
            files w' = files w /\ console w' = console w ++ [failure_report e]
        | (w2, Ok _) =>
            let fig := current_figure w2 in
            match ext_savefig E OUTPUT_FILE savefig_options fig, ext_show E fig
            with
            | Some e, _ =>
                files w' = files w
                /\ console w' = console w ++ [failure_report e]
            | None, Some e =>
                files w' = files w ++ [(OUTPUT_FILE, fig)]
                /\ console w' = console w ++ [failure_report e]
            | None, None =>
                files w' = files w ++ [(OUTPUT_FILE, fig)]
                /\ exists dims,
                     console w' = console w ++ success_report OUTPUT_FILE dims
            end
        end
    end.
Proof.
  assert (Hfirst : exists w', main w = (w', Ok tt) /\
            match main_body w with
            | (wb, Ok _) =>
                w' = wb /\
                exists fig dims,
                  dimensions_of (meshes wb !! length (meshes w)) = Ok dims /\
                  files w' = files w ++ [(OUTPUT_FILE, fig)] /\
                  console w' = console w ++ success_report OUTPUT_FILE dims
            | (wb, Raise e) =>
                console w' = console w ++ [failure_report e] /\
                (files w' = files w \/
                 exists fig,
                   files w' = files w ++ [(OUTPUT_FILE, fig)] /\
                   ext_show E fig = Some e)
            end).
  { rewrite main_run. pose proof (main_body_outcomes w) as [H _].
    destruct (main_body w) as [wb [[]|e]].
    - exists wb. split; [reflexivity|]. split; [reflexivity|]. exact H.
    - eexists. split; [reflexivity|]. destruct H as [Hc Hf].
      cbn [console files set_console]. rewrite Hc. split; [reflexivity|exact Hf]. }
  destruct Hfirst as (w' & Hmain & Hfirst). exists w'.
  split; [exact Hmain|]. split; [exact Hfirst|].
  pose proof (main_stages w) as Hstages. rewrite Hmain in Hstages.
  destruct (ext_load_mesh E STL_FILE) as [m0|e].
  2:{ by injection Hstages as ->. }
  destruct (compose_figure _ _ _ _ _) as [w2 [[]|e]].
  2:{ destruct Hstages as [[= ->] Hf]. by rewrite <- Hf. }
  cbv zeta in *.
  destruct (ext_savefig E _ _ _) as [e|].
  { destruct Hstages as [[= ->] Hf]. by rewrite <- Hf. }
  destruct (ext_show E _) as [e|].
  { by injection Hstages as ->. }
  destruct Hstages as [dims [= ->]]. split; [reflexivity|]. by exists dims.
Qed.

(** C8 (as stated) fails twice. When [plt.show()] raises, the script reports
    an error and the image file has been written all the same. And when the
    input file is missing, the loader raises its [ValueError], not a
    [FileNotFoundError]: the script prints the generic message and not the
    one about the missing file. *)
Lemma C8_counterexample :
  (let E := Box.externals_of (Some Box.cube) None
              (Some (Exn RuntimeError "display lost")) in
   let w' := fst (main (Box.initial_world E)) in
   console w' = ["❌ Error: display lost"]
   /\ map fst (files w') = ["engineering_drawing.png"])
  /\ (let E := Box.externals_of None None None in
      let w' := fst (main (Box.initial_world E)) in
      exists msg,
        ext_load_mesh E STL_FILE = Raise (Exn ValueError msg)
        /\ console w' = ["❌ Error: " +:+ msg]
        /\ files w' = []).
Proof.
  split; [vm_compute; split; reflexivity|].
  eexists. vm_compute. repeat split; reflexivity.
Qed.




(** ** Cross-sections *)

Lemma get_cross_section_run {E : externals} mesh origin normal (w : world E) :
  get_cross_section mesh origin normal w =
  (w, match meshes w !! mesh with
      | Some m => cross_section_of m origin normal
      | None => Raise invalid_reference
      end).
Proof.
  unfold get_cross_section, mesh_section, section_to_2D, deref, cross_section_of.
  rewrite !bind_run. destruct (meshes w !! mesh) as [m|]; [|reflexivity].
  simpl. destruct (ext_section E m origin normal) as [[s|]|e]; try reflexivity.
  simpl. rewrite bind_run. simpl. by destruct (ext_to_2D E s).
Qed.




(** ** Rendering a panel *)

(** C6: whatever the title and the dimension toggle, [plot_cross_section]
    on the empty result sets the title to the given title followed by
    [ (No section)], hides the axes and returns: these two calls are all it
    adds to the figure, so no geometry and no dimension is drawn. *)
Theorem C6_no_section_placeholder
  {E : externals} (ax : nat) (title : string) (show_dimensions : bool)
  (w : world E) :
  plot_cross_section ax None title show_dimensions w =
  (emit ax
     [ ax_set_title (title +:+ " (No section)")
         [("fontsize", KNum 10); ("weight", KStr "bold")];
       ax_axis "off" ] w,
   Ok tt).
Proof. by rewrite plot_cross_section_run. Qed.






(** The offset follows the larger side, whichever it is: it is 0.6 for an
    outline of 4 by 2 and for an outline of 2 by 4. The arrows lie 0.6 below
    and 0.6 to the right of the outline. *)
Example offset_of_the_larger_side :
  let E := Box.externals_of None None None in
  let arrows (p : Path2D) :=
    dimension_arrows 0
      (current_figure
         (fst (add_dimension_annotations 0 p "TOP VIEW" (Box.initial_world E)))) in
  arrows wide_outline
  = [ ((0, -0.6), (4, -0.6)); ((4.6, 0), (4.6, 2)) ]%float
  /\ arrows tall_outline
     = [ ((0, -0.6), (2, -0.6)); ((2.6, 0), (2.6, 4)) ]%float.
Proof. vm_compute. split; reflexivity. Qed.

(** ** Overall dimensions *)



(** ** Composing the figure *)

Section Composition.
Context {E : externals}.
Implicit Types (w : world E).

Lemma for_each_draw {A} ax (f : A -> ax_cmd) (l : list A) w :
  (forall x, refused (f x) = None) ->
  for_each l (fun x => draw ax (f x)) w = (emit ax (map f l) w, Ok tt).
Proof.
  intros Hf. revert w. induction l as [|x l IH]; intros w; simpl.
  - by rewrite emit_nil.
  - unfold bind. rewrite draw_run, IH, emit_app by done. reflexivity.
Qed.

Lemma for_each_ext {A} (f g : A -> M E unit) (l : list A) w :
  (forall x w', f x w' = g x w') -> for_each l f w = for_each l g w.
Proof.
  intros Hfg. revert w. induction l as [|x l IH]; intros w; simpl; [done|].
  unfold bind. rewrite Hfg. destruct (g x w) as [w' [[]|e]]; [apply IH|done].
Qed.

Lemma for_enumerate_draw {A} ax (f : nat -> A -> ax_cmd) (l : list A) i w :
  (forall j x, refused (f j x) = None) ->
  for_enumerate i l (fun j x => draw ax (f j x)) w
  = (emit ax (imap (fun j => f (i + j)) l) w, Ok tt).
Proof.
  intros Hf. revert i w. induction l as [|x l IH]; intros i w; simpl.
  - by rewrite emit_nil.
  - rewrite draw_bind, IH, emit_app by done. rewrite Nat.add_0_r. simpl.
    do 3 f_equal. apply imap_ext. intros j y _. simpl. f_equal. lia.
Qed.

Lemma fig_add_axes_bind {B} pos (k : nat -> M E B) w :
  (fig_add_axes pos ≫= k) w
  = k (length (fig_axes (current_figure w))) (add_axes pos w).
Proof. reflexivity. Qed.

Lemma create_title_block_run d w :
  create_title_block d w =
  match title_block_fields d with
  | Ok fields =>
      (add_panel title_block_rect
         (title_block_frame ++ map title_block_text fields) w, Ok tt)
  | Raise e => (add_panel title_block_rect title_block_frame w, Raise e)
  end.
Proof.
  unfold create_title_block, add_panel. cbv zeta.
  rewrite fig_add_axes_bind. repeat (rewrite draw_bind by reflexivity).
  rewrite bind_run, for_each_draw by reflexivity.
  rewrite bind_run, for_each_draw by reflexivity.
  rewrite lift_bind. repeat rewrite emit_app.
  destruct (title_block_fields d) as [fields|e]; [|reflexivity].
  rewrite (for_each_ext _ (fun f => draw _ (title_block_text f)))
    by (by intros [[[[text x] y] fontsize] weight] w').
  rewrite for_each_draw, emit_app by (by intros [[[[text x] y] fontsize] weight]).
  reflexivity.
Qed.

Lemma create_notes_section_run d w :
  create_notes_section d w =
  match notes_lines d with
  | Ok notes =>
      (add_panel notes_rect (notes_frame ++ imap note_text notes) w, Ok tt)
  | Raise e => (add_panel notes_rect notes_frame w, Raise e)
  end.
Proof.
  unfold create_notes_section, add_panel.
  rewrite fig_add_axes_bind. repeat (rewrite draw_bind by reflexivity).
  rewrite lift_bind. repeat rewrite emit_app.
  destruct (notes_lines d) as [notes|e]; [|reflexivity].
  rewrite (for_enumerate_draw _ note_text notes), emit_app by reflexivity.
  reflexivity.
Qed.

Lemma render_view_run mesh (m : Mesh E) dims title pl pos w :
  meshes w !! mesh = Some m ->
  render_view mesh dims (title, pl, pos) w =
  (add_panel pos (fst (view_artists m dims title pl)) w,
   outcome (snd (view_artists m dims title pl))).
Proof.
  intros Hm. unfold render_view, view_artists, add_panel.
  rewrite fig_add_axes_bind.
  rewrite lift_bind.
  destruct (getitem pl "origin") as [origin|e]; [|by rewrite emit_nil].
  rewrite lift_bind.
  destruct (getitem pl "normal") as [normal|e]; [|by rewrite emit_nil].
  rewrite bind_run, get_cross_section_run.
  change (meshes (add_axes pos w)) with (meshes w). rewrite Hm.
  destruct (cross_section_of m origin normal) as [o|e]; [|by rewrite emit_nil].
  apply plot_cross_section_run.
Qed.

Lemma add_panel_meshes pos cmds w : meshes (add_panel pos cmds w) = meshes w.
Proof. reflexivity. Qed.

Lemma add_panel_drawing pos cmds (ps : list panel) w :
  add_panel pos cmds (set_figure (drawing_figure ps) w)
  = set_figure (drawing_figure (ps ++ [(pos, cmds)])) w.
Proof.
  unfold add_panel, emit, add_artists, add_axes, set_figure, drawing_figure.
  cbn [current_figure figsize facecolor fig_axes fig_artists meshes files console].
  rewrite map_app, imap_app, concat_app, !length_map. simpl.
  by rewrite Nat.add_0_r, app_nil_r.
Qed.

Lemma add_panels_drawing (ps qs : list panel) w :
  add_panels qs (set_figure (drawing_figure ps) w)
  = set_figure (drawing_figure (ps ++ qs)) w.
Proof.
  revert ps. induction qs as [|[pos cmds] qs IH]; intros ps; simpl.
  - by rewrite app_nil_r.
  - rewrite add_panel_drawing, IH. by rewrite <- app_assoc.
Qed.

Lemma add_panels_meshes ps w : meshes (add_panels ps w) = meshes w.
Proof.
  revert w. induction ps as [|p ps IH]; intros w; simpl; [done|].
  by rewrite IH.
Qed.

Lemma render_views_run mesh (m : Mesh E) dims items w :
  meshes w !! mesh = Some m ->
  for_each items (render_view mesh dims) w =
  (add_panels (fst (view_panels m dims items)) w,
   outcome (snd (view_panels m dims items))).
Proof.
  revert w. induction items as [|[[title pl] pos] rest IH]; intros w Hm.
  - reflexivity.
  - cbn [for_each view_panels]. unfold bind at 1.
    rewrite (render_view_run _ m) by done.
    destruct (snd (view_artists m dims title pl)) as [e|]; simpl outcome;
      [reflexivity|].
    rewrite IH by done. by destruct (view_panels m dims rest).
Qed.

Lemma compose_figure_run mesh (m : Mesh E) views di dims w :
  meshes w !! mesh = Some m ->
  compose_figure mesh views di dims w =
  match dimensions_of (Some m) with
  | Raise e => (w, Raise e)
  | Ok _ =>
      let dp := drawing_panels m views (EngineeringDrawing E di) dims in
      (set_figure (drawing_figure (fst dp)) w, outcome (snd dp))
  end.
Proof.
  intros Hm. unfold compose_figure. cbv zeta.
  rewrite bind_run, get_mesh_dimensions_run, Hm.
  destruct (dimensions_of (Some m)) as [d0|e]; [|reflexivity].
  rewrite bind_run. unfold plt_figure at 1. cbn beta iota.
  rewrite bind_run. unfold fig_set_facecolor at 1. cbn beta iota.
  change (set_figure _ (set_figure _ w)) with (set_figure (drawing_figure []) w).
  rewrite bind_run, (render_views_run _ m) by done.
  rewrite add_panels_drawing. unfold drawing_panels. simpl app.
  destruct (view_panels m dims _) as [vps [e|]]; [reflexivity|].
  simpl outcome. cbn beta iota.
  rewrite bind_run, create_title_block_run.
  destruct (title_block_fields _) as [fields|e];
    [|by rewrite add_panel_drawing].
  rewrite add_panel_drawing.
  rewrite bind_run, create_notes_section_run.
  destruct (notes_lines _) as [notes|e];
    [|by rewrite add_panel_drawing, <- app_assoc].
  rewrite add_panel_drawing, <- app_assoc.
  rewrite fig_add_axes_bind. repeat (rewrite draw_bind by reflexivity).
  rewrite draw_run by reflexivity. repeat rewrite emit_app.
  change (emit _ _ (add_axes ?pos ?w0)) with (add_panel pos border_artists w0).
  by rewrite add_panel_drawing, <- app_assoc.
Qed.

End Composition.

(** ** The layout of the views *)

Lemma view_positions_length (n : nat) :
  n = 1 \/ n = 2 \/ n = 3 -> length (view_positions n) = n.
Proof. by intros [->|[->| ->]]. Qed.

Lemma py_zip_fst {A B} (a : list A) (b : list B) :
  length a <= length b -> map fst (py_zip a b) = a.
Proof.
  revert b. induction a as [|x a IH]; intros [|y b] Hlen; simpl in *;
    try done; try lia.
  f_equal. apply IH. lia.
Qed.

Lemma py_zip_snd {A B} (a : list A) (b : list B) :
  length b <= length a -> map snd (py_zip a b) = b.
Proof.
  revert b. induction a as [|x a IH]; intros [|y b] Hlen; simpl in *;
    try done; try lia.
  f_equal. apply IH. lia.
Qed.

Lemma py_zip_length {A B} (a : list A) (b : list B) :
  length (py_zip a b) = Nat.min (length a) (length b).
Proof.
  revert b. induction a as [|x a IH]; intros [|y b]; simpl; try done.
  by rewrite IH.
Qed.

Lemma py_zip_take {A B} (a : list A) (b : list B) :
  py_zip a b = py_zip (take (length b) a) b.
Proof.
  revert b. induction a as [|x a IH]; intros [|y b]; simpl; try done.
  by rewrite <- IH.
Qed.

Section ViewPanels.
Context {E : externals}.
Implicit Types (w : world E) (m : Mesh E).

Lemma view_panels_all m dims items :
  Forall (fun item => view_renders m dims (fst item)) items ->
  view_panels m dims items = (map (view_panel m dims) items, None).
Proof.
  induction 1 as [|[[title pl] pos] rest Hok _ IH]; [reflexivity|].
  unfold view_renders in Hok. simpl in *. by rewrite Hok, IH.
Qed.

Lemma view_panels_none m dims items :
  snd (view_panels m dims items) = None ->
  Forall (fun item => view_renders m dims (fst item)) items.
Proof.
  induction items as [|[[title pl] pos] rest IH]; [by constructor|].
  simpl. destruct (snd (view_artists m dims title pl)) as [e|] eqn:Hv; [done|].
  destruct (view_panels m dims rest) as [ps r]. simpl. intros ->.
  constructor; [exact Hv|by apply IH].
Qed.

End ViewPanels.

Section Orchestration.
Context {E : externals}.
Implicit Types (w : world E) (m : Mesh E).

Lemma drawing_panels_none m views d dims :
  snd (drawing_panels m views d dims) = None ->
  exists fields notes,
    title_block_fields d = Ok fields /\ notes_lines d = Ok notes /\
    Forall (fun item => view_renders m dims (fst item))
           (py_zip views (view_positions (length views))) /\
    fst (drawing_panels m views d dims)
    = map (view_panel m dims) (py_zip views (view_positions (length views)))
      ++ closing_panels fields notes.
Proof.
  unfold drawing_panels.
  destruct (view_panels m dims _) as [vps [e|]] eqn:Hvps; [done|].
  destruct (title_block_fields d) as [fields|e]; [|done].
  destruct (notes_lines d) as [notes|e]; [|done].
  intros _. exists fields, notes.
  assert (Hall : Forall (fun item => view_renders m dims (fst item))
                   (py_zip views (view_positions (length views))))
    by (apply view_panels_none; by rewrite Hvps).
  repeat split; try done.
  rewrite (view_panels_all _ _ _ Hall) in Hvps. by injection Hvps as <-.
Qed.

Lemma drawing_panels_all m views d dims fields notes :
  title_block_fields d = Ok fields -> notes_lines d = Ok notes ->
  Forall (fun item => view_renders m dims (fst item))
         (py_zip views (view_positions (length views))) ->
  drawing_panels m views d dims
  = (map (view_panel m dims) (py_zip views (view_positions (length views)))
     ++ closing_panels fields notes, None).
Proof.
  intros Hfields Hnotes Hall. unfold drawing_panels.
  by rewrite (view_panels_all _ _ _ Hall), Hfields, Hnotes.
Qed.

(** A run of the orchestrator that returns has saved the finished figure. *)
Lemma create_engineering_drawing_returns mesh m views di out dims w w' path :
  meshes w !! mesh = Some m ->
  create_engineering_drawing mesh views di out dims w = (w', Ok path) ->
  exists fields notes,
    title_block_fields (EngineeringDrawing E di) = Ok fields
    /\ notes_lines (EngineeringDrawing E di) = Ok notes
    /\ Forall (fun item => view_renders m dims (fst item))
              (py_zip views (view_positions (length views)))
    /\ path = out
    /\ w' = set_files
              (files w ++ [(out, finished_figure m dims views fields notes)])
              (set_figure (finished_figure m dims views fields notes) w).
Proof.
  intros Hm. rewrite create_engineering_drawing_run, (compose_figure_run _ m) by done.
  destruct (dimensions_of (Some m)) as [d0|e]; [|done]. cbv zeta.
  destruct (snd (drawing_panels m views _ dims)) as [e|] eqn:Hdp; [done|].
  apply drawing_panels_none in Hdp as (fields & notes & Hf & Hn & Hall & ->).
  simpl outcome. cbn [current_figure set_figure].
  fold (finished_figure m dims views fields notes).
  destruct (ext_savefig E out savefig_options _) as [e|]; [done|].
  destruct (ext_show E _) as [e|]; [done|].
  intros [= <- <-]. by exists fields, notes.
Qed.

(** The orchestrator returns whenever the mesh has bounds, every view
    renders, the metadata is complete and the back end does not raise. *)
Lemma create_engineering_drawing_total
  mesh m views di out dims w fields notes d0 :
  meshes w !! mesh = Some m ->
  dimensions_of (Some m) = Ok d0 ->
  Forall (fun item => view_renders m dims (fst item))
         (py_zip views (view_positions (length views))) ->
  title_block_fields (EngineeringDrawing E di) = Ok fields ->
  notes_lines (EngineeringDrawing E di) = Ok notes ->
  ext_savefig E out savefig_options (finished_figure m dims views fields notes)
  = None ->
  ext_show E (finished_figure m dims views fields notes) = None ->
  create_engineering_drawing mesh views di out dims w =
  (set_files (files w ++ [(out, finished_figure m dims views fields notes)])
     (set_figure (finished_figure m dims views fields notes) w),
   Ok out).
Proof.
  intros Hm Hd Hall Hf Hn Hsave Hshow.
  rewrite create_engineering_drawing_run, (compose_figure_run _ m) by done.
  rewrite Hd. cbv zeta.
  rewrite (drawing_panels_all _ _ _ _ fields notes) by done.
  simpl outcome. cbn [current_figure set_figure fst].
  fold (finished_figure m dims views fields notes).
  by rewrite Hsave, Hshow.
Qed.

End Orchestration.

(** C1: for a [views] dictionary of [n] entries, [n] being 1, 2 or 3, the
    orchestrator picks a preset of exactly [n] positions and its loop visits
    every entry once, in order, each with a position of its own. A run that
    returns has saved a figure whose first [n] panels are the views, panel
    [i] at position [i] of the preset with the artists of the cross-section
    of entry [i], followed by the title block, the notes and the border; and
    the run does return when the mesh has bounds, every view renders, the
    metadata is complete and saving and showing do not raise. *)
Theorem C1_one_panel_per_view
  {E : externals} (mesh : nat) (m : Mesh E) (views : views_t)
  (di : option (gmap string pyval)) (out : string) (dims : bool) (w : world E) :
  length views = 1 \/ length views = 2 \/ length views = 3 ->
  meshes w !! mesh = Some m ->
  let n := length views in
  let items := py_zip views (view_positions n) in
  let d := EngineeringDrawing E di in
  length (view_positions n) = n
  /\ map fst items = views
  /\ map snd items = view_positions n
  /\ (forall w' path,
        create_engineering_drawing mesh views di out dims w = (w', Ok path) ->
        exists fields notes,
          title_block_fields d = Ok fields /\ notes_lines d = Ok notes
          /\ Forall (view_renders m dims) views
          /\ length (map (view_panel m dims) items) = n
          /\ files w' =
             files w ++
             [(out, drawing_figure (map (view_panel m dims) items
                                    ++ closing_panels fields notes))])
  /\ (forall fields notes d0,
        dimensions_of (Some m) = Ok d0 ->
        Forall (view_renders m dims) views ->
        title_block_fields d = Ok fields ->
        notes_lines d = Ok notes ->
        ext_savefig E out savefig_options
          (finished_figure m dims views fields notes) = None ->
        ext_show E (finished_figure m dims views fields notes) = None ->
        exists w',
          create_engineering_drawing mesh views di out dims w = (w', Ok out)
          /\ length (fig_axes (current_figure w')) = n + 3).
Proof.
  intros Hn Hm n items d.
  assert (Hlen : length (view_positions n) = n)
    by (by apply view_positions_length).
  assert (Hfst : map fst items = views)
    by (apply py_zip_fst; unfold n in *; lia).
  assert (Hsnd : map snd items = view_positions n)
    by (apply py_zip_snd; unfold n in *; lia).
  assert (Hitems : length items = n)
    by (unfold items; rewrite py_zip_length; unfold n in *; lia).
  repeat split; try done.
  - intros w' path Hrun.
    apply (create_engineering_drawing_returns _ m) in Hrun
      as (fields & notes & Hf & Hnotes & Hall & -> & ->); [|done].
    exists fields, notes. repeat split; try done.
    + rewrite <- Hfst. by apply Forall_map.
    + by rewrite length_map.
  - intros fields notes d0 Hd Hall Hf Hnotes Hsave Hshow.
    eexists. split.
    + apply (create_engineering_drawing_total _ m _ _ _ _ _ fields notes d0);
        try done.
      apply (proj1 (Forall_map fst (view_renders m dims) items)).
      by rewrite Hfst.
    + cbn [current_figure set_files set_figure]. unfold finished_figure.
      cbn [drawing_figure fig_axes]. rewrite length_map, length_app.
      rewrite length_map. fold n. fold items. rewrite Hitems. simpl. lia.
Qed.

Lemma C1_one_panel_per_view_witness :
  let E := Box.externals_of (Some Box.cube) None None in
  let w := cube_world E centred_cube in
  length (view_positions 3) = 3
  /\ map fst (py_zip slicing_planes (view_positions 3)) = slicing_planes
  /\ exists w',
       create_engineering_drawing 0 slicing_planes None "drawing.png" true w
       = (w', Ok "drawing.png")
       /\ length (fig_axes (current_figure w')) = 3 + 3.
Proof.
  intros E w.
  destruct (C1_one_panel_per_view (E := E) 0 centred_cube slicing_planes None
              "drawing.png" true w (or_intror (or_intror eq_refl)) eq_refl)
    as (Hlen & Hfst & _ & _ & Htotal).
  split; [exact Hlen|]. split; [exact Hfst|].
  eapply Htotal.
  - vm_compute. reflexivity.
  - repeat constructor.
  - vm_compute. reflexivity.
  - vm_compute. reflexivity.
  - reflexivity.
  - reflexivity.
Defined.

(** ** View counts other than 1, 2 and 3 *)

(** C4 (as amended): for a [views] dictionary whose number of entries is
    not 1, 2 or 3, the lookup of the layout does not fail: the [else] branch
    selects the preset of three positions. The loop then pairs the first
    three entries with these positions and silently leaves out the others:
    the orchestrator runs exactly as on the first three entries, and with no
    entry at all it renders no view. *)
Theorem C4_other_counts_use_three_positions
  {E : externals} (mesh : nat) (views : views_t)
  (di : option (gmap string pyval)) (out : string) (dims : bool) (w : world E) :
  length views <> 1 -> length views <> 2 -> length views <> 3 ->
  view_positions (length views) = three_views
  /\ py_zip views (view_positions (length views))
     = py_zip (take 3 views) three_views
  /\ length (py_zip views (view_positions (length views)))
     = Nat.min (length views) 3
  /\ create_engineering_drawing mesh views di out dims w
     = create_engineering_drawing mesh (take 3 views) di out dims w.
Proof.
  intros H1 H2 H3.
  assert (Hpos : view_positions (length views) = three_views).
  { unfold view_positions.
    destruct (Nat.eqb_spec (length views) 1); [done|].
    by destruct (Nat.eqb_spec (length views) 2). }
  assert (Hzip : py_zip views (view_positions (length views))
                 = py_zip (take 3 views) three_views).
  { rewrite Hpos. apply (py_zip_take views three_views). }
  split; [exact Hpos|]. split; [exact Hzip|]. split.
  { rewrite Hpos, py_zip_length. reflexivity. }
  assert (Hzip' : py_zip (take 3 views) (view_positions (length (take 3 views)))
                  = py_zip (take 3 views) three_views).
  { destruct views as [|v1 [|v2 [|v3 rest]]]; simpl in *; done. }
  unfold create_engineering_drawing, compose_figure. cbv zeta.
  by rewrite Hzip, Hzip'.
Qed.

Lemma C4_other_counts_use_three_positions_witness :
  let E := Box.externals_of (Some Box.cube) None None in
  let w := cube_world E centred_cube in
  view_positions 4 = three_views
  /\ py_zip four_views (view_positions 4) = py_zip slicing_planes three_views
  /\ length (py_zip four_views (view_positions 4)) = 3
  /\ create_engineering_drawing 0 four_views None "drawing.png" true w
     = create_engineering_drawing 0 slicing_planes None "drawing.png" true w.
Proof.
  intros E w.
  exact (C4_other_counts_use_three_positions (E := E) 0 four_views None
           "drawing.png" true w
           ltac:(discriminate) ltac:(discriminate) ltac:(discriminate)).
Defined.

(** C4 (as stated) fails: with four views the lookup yields the three
    positions of the last preset, and the orchestrator returns normally
    after saving a figure with three view panels; the fourth view is not
    drawn and nothing is reported. *)
Lemma C4_counterexample :
  let E := Box.externals_of (Some Box.cube) None None in
  let run := create_engineering_drawing 0 four_views None "drawing.png" true
               (cube_world E centred_cube) in
  length four_views = 4
  /\ view_positions (length four_views) = three_views
  /\ snd run = Ok "drawing.png"
  /\ fig_axes (current_figure (fst run))
     = three_views ++ [title_block_rect; notes_rect; border_rect]
  /\ map fst (files (fst run)) = ["drawing.png"].
Proof. vm_compute. repeat split; reflexivity. Qed.

(** ** Drawing metadata *)

Lemma getitem_lookup {V} (d : gmap string V) (k : string) :
  getitem d k = match d !! k with Some v => Ok v | None => Raise (key_error k) end.
Proof. reflexivity. Qed.

(** The title block reads its eleven keys or raises [KeyError] for one that
    the metadata lacks. *)
Lemma title_block_fields_spec (d : gmap string pyval) :
  (exists fields, title_block_fields d = Ok fields
                  /\ Forall (fun k => is_Some (d !! k)) title_block_keys)
  \/ (exists k, In k title_block_keys /\ d !! k = None
                 /\ title_block_fields d = Raise (key_error k)).
Proof.
  unfold title_block_fields, title_block_keys. rewrite !getitem_lookup.
  repeat match goal with
         | |- context [d !! ?k] =>
             destruct (d !! k) eqn:?;
             [|right; exists k; split; [simpl; tauto|by split]]
         end.
  left. eexists. split; [reflexivity|]. repeat constructor; by eauto.
Qed.


Section Metadata.
Context {E : externals}.
Implicit Types (w : world E) (d : gmap string pyval).



Lemma EngineeringDrawing_non_empty d :
  d <> ∅ -> EngineeringDrawing E (Some d) = d.
Proof.
  intros Hne. unfold EngineeringDrawing, truthy.
  destruct (Nat.eqb_spec (size d) 0) as [Hsize|]; [|done].
  by apply map_size_empty_iff in Hsize.
Qed.




End Metadata.




(** The run on this metadata: the title block raises at its first field. *)
Example part_name_only_raises :
  let E := Box.externals_of None None None in
  snd (compose_metadata part_name_only (Box.initial_world E))
  = Raise (Exn KeyError "'company'").
Proof. vm_compute. reflexivity. Qed.

(** ** End to end

    A cube of side 10 and the three standard planes: every view is labelled
    10.00 mm in width and height, one image is written, and the script
    prints the three dimensions. *)
Example cube_end_to_end :
  let E := Box.externals_of (Some Box.cube) None None in
  let w := fst (main (Box.initial_world E)) in
  snd (main (Box.initial_world E)) = Ok tt
  /\ map fst (files w) = ["engineering_drawing.png"]
  /\ match files w with
     | [(_, f)] =>
         dimension_labels f
         = [ (0, PStr "10.00 mm"); (0, PStr "10.00 mm");
             (1, PStr "10.00 mm"); (1, PStr "10.00 mm");
             (2, PStr "10.00 mm"); (2, PStr "10.00 mm") ]
         /\ length (fig_axes f) = 6
     | _ => False
     end
  /\ console w
     = [ "✅ Engineering drawing saved to: engineering_drawing.png";
         newline +:+ "📐 Part Dimensions:";
         "   Length: 10.00 mm"; "   Width:  10.00 mm"; "   Height: 10.00 mm" ].
Proof. vm_compute. repeat split; reflexivity. Qed.

(** * Further properties of the code *)

(** ** Outlines that cannot be drawn, and outlines drawn twice *)

Lemma np_allclose_refl (tol : float) (p : point) :
  no_nan p = true -> np_allclose tol p p = true.
Proof.
  unfold no_nan, np_allclose, np_isclose, PrimFloat.is_nan.
  rewrite !negb_involutive. intros [-> ->]%andb_prop.
  by rewrite !orb_true_r.
Qed.

Lemma outline_artists_stops (good rest : list polyline) (bad : polyline) e :
  Forall (fun path => 2 <= length path) good ->
  polyline_artist bad = Raise e ->
  outline_artists (good ++ bad :: rest)
  = (map (fun path => outline_patch (closed_vertices path)) good, Some e).
Proof.
  intros Hgood Hbad. induction Hgood as [|path good Hlen _ IH]; simpl.
  - by rewrite Hbad.
  - by rewrite polyline_artist_closed, IH.
Qed.

Lemma single_point_artist (pt : point) :
  no_nan pt = true ->
  exists msg, polyline_artist [pt] = Raise (Exn ValueError msg).
Proof.
  intros Hpt. unfold polyline_artist, closing_points, is_path_closed.
  simpl. rewrite np_allclose_refl by done. simpl. by eexists.
Qed.

(** X1: a polyline without points makes [plot_cross_section] raise
    [IndexError], and a polyline of a single point without NaN makes it raise
    [ValueError]; the polylines before it have been drawn, and neither the
    dimensions nor the plot limits are: the panel is left half done and the
    exception goes to the caller. *)
Theorem X1_bad_polyline_stops_panel
  {E : externals} (ax : nat) (p : Path2D) (title : string) (dims : bool)
  (w : world E) (good rest : list polyline) (bad : polyline) :
  discrete p = good ++ bad :: rest ->
  Forall (fun path => 2 <= length path) good ->
  bad = [] \/ (exists pt, bad = [pt] /\ no_nan pt = true) ->
  exists e,
    plot_cross_section ax (Some p) title dims w
    = (emit ax (map (fun path => outline_patch (closed_vertices path)) good) w,
       Raise e)
    /\ (bad = [] -> e = index_error)
    /\ (bad <> [] -> exn_cls e = ValueError).
Proof.
  intros Hp Hgood Hbad.
  assert (Hartist : exists e, polyline_artist bad = Raise e
                              /\ (bad = [] -> e = index_error)
                              /\ (bad <> [] -> exn_cls e = ValueError)).
  { destruct Hbad as [-> | (pt & -> & Hpt)].
    - exists index_error. by repeat split.
    - destruct (single_point_artist pt Hpt) as [msg Hmsg].
      exists (Exn ValueError msg). by repeat split. }
  destruct Hartist as (e & Hartist & Hcases). exists e. split; [|exact Hcases].
  rewrite plot_cross_section_run. simpl. rewrite Hp.
  by rewrite (outline_artists_stops good rest bad e).
Qed.

Lemma X1_bad_polyline_stops_panel_witness :
  let E := Box.externals_of None None None in
  let p := {| discrete := [[(0, 0); (4, 0); (4, 4); (0, 0)]%float; []];
              path_bounds := ((0, 0), (4, 4))%float |} in
  exists e,
    plot_cross_section 0 (Some p) "TOP VIEW" true (Box.initial_world E)
    = (emit 0 [outline_patch [(0, 0); (4, 0); (4, 4); (0, 0)]%float]
         (Box.initial_world E), Raise e)
    /\ (@nil point = [] -> e = index_error)
    /\ (@nil point <> [] -> exn_cls e = ValueError).
Proof.
  intros E p.
  refine (X1_bad_polyline_stops_panel (E := E) 0 p "TOP VIEW" true
            (Box.initial_world E) [[(0, 0); (4, 0); (4, 4); (0, 0)]%float] []
            [] eq_refl _ (or_introl eq_refl)).
  repeat constructor.
Defined.

(** X2: the points that [plot_cross_section] hands to the path constructor
    always pass the closure test of the code, when the first point of the
    polyline has no NaN coordinate: closing a polyline a second time changes
    nothing. *)
Theorem X2_closing_is_idempotent (path pts : polyline) (p0 : point) :
  row0 path = Ok p0 ->
  no_nan p0 = true ->
  closing_points path = Ok pts ->
  is_path_closed pts default_tol = Ok true /\ closing_points pts = Ok pts.
Proof.
  intros Hrow Hnan Hclose.
  assert (Hclosed : is_path_closed pts default_tol = Ok true).
  { unfold closing_points in Hclose.
    destruct (is_path_closed path default_tol) as [[|]|e] eqn:Hpath;
      simpl in Hclose; [| |done].
    - by injection Hclose as <-.
    - rewrite Hrow in Hclose. injection Hclose as <-.
      destruct path as [|q rest]; [done|]. injection Hrow as ->.
      unfold is_path_closed, row_last. simpl row0.
      rewrite last_snoc. by rewrite np_allclose_refl. }
  split; [exact Hclosed|]. unfold closing_points. by rewrite Hclosed.
Qed.

Lemma X2_closing_is_idempotent_witness :
  is_path_closed [(0, 0); (4, 0); (4, 4); (0, 4); (0, 0)]%float default_tol
  = Ok true
  /\ closing_points [(0, 0); (4, 0); (4, 4); (0, 4); (0, 0)]%float
     = Ok [(0, 0); (4, 0); (4, 4); (0, 4); (0, 0)]%float.
Proof.
  exact (X2_closing_is_idempotent [(0, 0); (4, 0); (4, 4); (0, 4)]%float
           [(0, 0); (4, 0); (4, 4); (0, 4); (0, 0)]%float (0, 0)%float
           eq_refl eq_refl eq_refl).
Defined.

(** ** The dimension toggle *)

Lemma outline_artists_no_dimension (l : list polyline) :
  List.filter is_dimension_artist (fst (outline_artists l)) = [].
Proof.
  induction l as [|path l IH]; simpl; [done|].
  unfold polyline_artist.
  destruct (closing_points path) as [pts|e]; [|done].
  destruct (MplPath_new pts _) as [poly|e]; [|done].
  destruct (outline_artists l) as [cs r]. simpl in *. exact IH.
Qed.

Lemma accepted_no_dimension (cmds : list ax_cmd) :
  List.filter is_dimension_artist cmds = [] ->
  List.filter is_dimension_artist (fst (accepted cmds)) = [].
Proof.
  induction cmds as [|c cmds IH]; simpl; [done|].
  destruct (is_dimension_artist c) eqn:Hc; [done|]. intros Hcmds.
  destruct (refused c); [done|].
  destruct (accepted cmds) as [cs r]. simpl in *. rewrite Hc. by apply IH.
Qed.

(** X3: with [show_dimensions] off, [plot_cross_section] puts no line, no
    arrow and no text on its axes, whatever the outline is and however the
    call ends. *)
Theorem X3_no_dimension_when_off
  {E : externals} (ax : nat) (o : option Path2D) (title : string) (w : world E) :
  exists cmds r,
    plot_cross_section ax o title false w = (emit ax cmds w, r)
    /\ List.filter is_dimension_artist cmds = [].
Proof.
  do 2 eexists. split; [apply plot_cross_section_run|].
  destruct o as [p|]; [|reflexivity]. cbn [panel_artists].
  pose proof (outline_artists_no_dimension (discrete p)) as Hpatches.
  destruct (outline_artists (discrete p)) as [cs [e|]]; simpl in *; [done|].
  assert (Hlimits : List.filter is_dimension_artist
                      (fst (accepted (limits_artists p))) = []).
  { apply accepted_no_dimension. unfold limits_artists.
    by destruct (path_bounds p). }
  destruct (accepted (limits_artists p)) as [ls r]. simpl in *.
  by rewrite List.filter_app, Hpatches.
Qed.

(** ** Views that miss the mesh, and views that cannot be sliced *)

Section Views.
Context {E : externals}.
Implicit Types (w : world E) (m : Mesh E).


Lemma view_renders_well_sliced m dims title pl :
  well_sliced m pl -> view_renders m dims (title, pl).
Proof.
  intros (origin & normal & Ho & Hn & Hsection).
  unfold view_renders, view_artists, cross_section_of, getitem. simpl.
  unfold plane in *. rewrite Ho, Hn.
  destruct Hsection as [-> | (s & p & t & -> & -> & Hlen & Hfin)]; [reflexivity|].
  cbn [fst panel_artists]. by rewrite outline_artists_closed, accepted_limits.
Qed.

Lemma Forall_py_zip_fst {A B} (P : A -> Prop) (a : list A) (b : list B) :
  Forall P a -> Forall (fun item => P (fst item)) (py_zip a b).
Proof.
  intros Ha. revert b. induction Ha as [|x a Hx _ IH]; intros [|y b]; simpl;
    constructor; auto.
Qed.

Lemma view_panels_stops m dims good title pl rest (positions : list rect) e :
  length good < length positions ->
  Forall (view_renders m dims) good ->
  snd (view_artists m dims title pl) = Some e ->
  exists ps,
    view_panels m dims (py_zip (good ++ (title, pl) :: rest) positions)
    = (ps, Some e)
    /\ length ps = length good + 1.
Proof.
  intros Hlen Hgood He. revert positions Hlen.
  induction Hgood as [|[title' pl'] good Hv _ IH]; intros [|pos positions] Hlen;
    simpl in Hlen; try lia.
  - simpl. rewrite He. by eexists.
  - simpl. unfold view_renders in Hv. simpl in Hv. rewrite Hv.
    destruct (IH positions ltac:(lia)) as (ps & -> & Hps).
    eexists. split; [reflexivity|]. simpl. lia.
Qed.

End Views.



(** X5: for a mesh that has bounds, when one of the first three views has a
    plane that lacks the key [origin] or [normal] and the views before it
    slice cleanly (trimesh returns nothing, or an outline whose polylines
    have two points or more and whose plot limits are finite), the
    orchestrator raises [KeyError] for that key once the views before it are
    drawn: the axes of the view are already on the figure, the later views,
    the title block and the notes are never drawn, and nothing is saved or
    printed. *)
Theorem X5_view_without_key_aborts
  {E : externals} (mesh : nat) (m : Mesh E) (views good rest : views_t)
  (title : string) (pl : plane) (di : option (gmap string pyval))
  (out : string) (dims : bool) (w : world E) (d0 : mesh_dimensions) :
  meshes w !! mesh = Some m ->
  dimensions_of (Some m) = Ok d0 ->
  views = good ++ (title, pl) :: rest ->
  length good < 3 ->
  Forall (fun view => well_sliced m (snd view)) good ->
  pl !! "origin" = None \/ pl !! "normal" = None ->
  exists w' k,
    create_engineering_drawing mesh views di out dims w
    = (w', Raise (key_error k))
    /\ (k = "origin" \/ k = "normal") /\ pl !! k = None
    /\ length (fig_axes (current_figure w')) = length good + 1
    /\ files w' = files w /\ console w' = console w /\ meshes w' = meshes w.
Proof.
  intros Hm Hd -> Hlen Hgood Hkey.
  assert (He : exists k, snd (view_artists m dims title pl) = Some (key_error k)
                         /\ (k = "origin" \/ k = "normal") /\ pl !! k = None).
  { unfold view_artists, getitem. unfold plane in *.
    destruct (pl !! "origin") as [origin|] eqn:Ho.
    - destruct Hkey as [|Hn]; [done|]. rewrite Hn. exists "normal". auto.
    - exists "origin". auto. }
  destruct He as (k & He & Hk & Hmissing).
  destruct (view_panels_stops m dims good title pl rest
              (view_positions (length (good ++ (title, pl) :: rest)))
              (key_error k)) as (ps & Hps & Hcount); try done.
  { rewrite length_app. simpl. unfold view_positions.
    destruct (Nat.eqb_spec (length good + S (length rest)) 1); [simpl; lia|].
    destruct (Nat.eqb_spec (length good + S (length rest)) 2); simpl; lia. }
  { eapply Forall_impl; [exact Hgood|]. intros [title' pl'] Hv.
    by apply view_renders_well_sliced. }
  eexists _, k.
  rewrite create_engineering_drawing_run, (compose_figure_run _ m) by done.
  rewrite Hd. cbv zeta. unfold drawing_panels. rewrite Hps. simpl.
  repeat split; try done.
  cbn [current_figure set_figure drawing_figure fig_axes].
  by rewrite length_map.
Qed.

Lemma X5_view_without_key_aborts_witness :
  let E := Box.externals_of (Some Box.cube) None None in
  let w := cube_world E centred_cube in
  let views := [ ("FRONT VIEW", mk_plane (0, 0, 0) (0, 1, 0))%float;
                 ("TOP VIEW", plane_without_normal) ] in
  exists w' k,
    create_engineering_drawing 0 views None "drawing.png" true w
    = (w', Raise (key_error k))
    /\ (k = "origin" \/ k = "normal") /\ plane_without_normal !! k = None
    /\ length (fig_axes (current_figure w')) = 1 + 1
    /\ files w' = files w /\ console w' = console w /\ meshes w' = meshes w.
Proof.
  intros E w views.
  refine (X5_view_without_key_aborts (E := E) 0 centred_cube views
            [("FRONT VIEW", mk_plane (0, 0, 0) (0, 1, 0))%float] []
            "TOP VIEW" plane_without_normal None "drawing.png" true w _
            eq_refl eq_refl eq_refl _ _ (or_intror eq_refl)).
  - simpl. lia.
  - repeat constructor. do 2 eexists. repeat split; try reflexivity.
    right. do 3 eexists. repeat split; try reflexivity. repeat constructor.
Defined.

(** ** Failures of the orchestrator and of the script *)

(** X6: for a mesh without bounds (trimesh gives [None] for a mesh without
    vertices) the orchestrator raises [TypeError] at once: no figure is
    created, nothing is drawn or saved, and the world is left as it was,
    although the dimensions it asks for are used nowhere in the drawing. *)
Theorem X6_mesh_without_bounds_aborts
  {E : externals} (mesh : nat) (m : Mesh E) (views : views_t)
  (di : option (gmap string pyval)) (out : string) (dims : bool) (w : world E) :
  meshes w !! mesh = Some m ->
  ext_bounds E m = None ->
  create_engineering_drawing mesh views di out dims w
  = (w, Raise (Exn TypeError "'NoneType' object is not subscriptable")).
Proof.
  intros Hm Hb.
  rewrite create_engineering_drawing_run, (compose_figure_run _ m) by done.
  simpl. by rewrite Hb.
Qed.

Lemma X6_mesh_without_bounds_aborts_witness :
  let E := empty_mesh_externals in
  let w := set_meshes (E := E) [tt] (Box.initial_world E) in
  create_engineering_drawing 0 slicing_planes None "drawing.png" true w
  = (w, Raise (Exn TypeError "'NoneType' object is not subscriptable")).
Proof.
  intros E w.
  exact (X6_mesh_without_bounds_aborts (E := E) 0 tt slicing_planes None
           "drawing.png" true w eq_refl eq_refl).
Defined.

(** X7: the script prints the message about the missing STL file for every
    [FileNotFoundError] of its [try] block. When it is [plt.savefig] that
    raises it, the mesh has been loaded and centred, the figure is complete
    and no image exists, and the message still names the STL file. *)
Theorem X7_save_failure_reported_as_missing_mesh
  {E : externals} (w w2 : world E) (m0 : Mesh E) (e : exn) :
  ext_load_mesh E STL_FILE = Ok m0 ->
  compose_figure (length (meshes w)) slicing_planes (Some (drawing_info E)) true
    (fst (load_and_center_mesh STL_FILE w)) = (w2, Ok tt) ->
  ext_savefig E OUTPUT_FILE savefig_options (current_figure w2) = Some e ->
  exn_cls e = FileNotFoundError ->
  main w =
    (set_console
       (console w ++
        ["❌ STL file 'ball-bearing.stl' not found. Please check the file path."])
       w2, Ok tt)
  /\ meshes w2
     = meshes w ++ [ext_apply_translation E m0 (vneg (ext_center_mass E m0))]
  /\ files w2 = files w.
Proof.
  intros Hload Hcompose Hsave Hcls.
  pose proof (compose_figure_outside (length (meshes w)) slicing_planes
                (Some (drawing_info E)) true
                (fst (load_and_center_mesh STL_FILE w))) as (Hm & Hf & Hc).
  rewrite Hcompose in Hm, Hf, Hc. simpl in Hm, Hf, Hc.
  rewrite main_run, main_body_run.
  rewrite load_and_center_mesh_run, Hload in *. simpl in Hcompose, Hm, Hf, Hc.
  rewrite create_engineering_drawing_run, Hcompose, Hsave.
  unfold failure_report. rewrite Hcls, Hc. done.
Qed.

Lemma X7_save_failure_reported_as_missing_mesh_witness :
  let E := Box.externals_of (Some Box.cube)
             (Some (Exn FileNotFoundError "[Errno 2] No such file or directory"))
             None in
  let w := Box.initial_world E in
  let w2 := fst (compose_figure 0 slicing_planes (Some (drawing_info E)) true
                   (fst (load_and_center_mesh STL_FILE w))) in
  main w =
    (set_console
       ["❌ STL file 'ball-bearing.stl' not found. Please check the file path."]
       w2, Ok tt)
  /\ meshes w2 = [centred_cube]
  /\ files w2 = [].
Proof.
  intros E w w2.
  exact (X7_save_failure_reported_as_missing_mesh (E := E) w w2 Box.cube
           (Exn FileNotFoundError "[Errno 2] No such file or directory")
           eq_refl ltac:(vm_compute; reflexivity) eq_refl eq_refl).
Defined.

(** ** Metadata that is never read *)

Section UnreadKeys.
Context {E : externals}.
Implicit Types (d : gmap string pyval).

Lemma title_block_fields_agree d d' :
  (forall k, In k consumed_keys -> d' !! k = d !! k) ->
  title_block_fields d' = title_block_fields d.
Proof.
  intros Hsame. unfold title_block_fields, getitem.
  rewrite !Hsame by (simpl; tauto). reflexivity.
Qed.

Lemma notes_lines_agree d d' :
  (forall k, In k consumed_keys -> d' !! k = d !! k) ->
  notes_lines d' = notes_lines d.
Proof.
  intros Hsame. unfold notes_lines, getitem.
  rewrite !Hsame by (simpl; tauto). reflexivity.
Qed.

Lemma create_engineering_drawing_agree mesh views d d' out dims (w : world E) :
  d <> ∅ -> d' <> ∅ ->
  (forall k, In k consumed_keys -> d' !! k = d !! k) ->
  create_engineering_drawing mesh views (Some d') out dims w
  = create_engineering_drawing mesh views (Some d) out dims w.
Proof.
  intros Hd Hd' Hsame.
  unfold create_engineering_drawing, compose_figure. cbv zeta.
  rewrite !EngineeringDrawing_non_empty by done.
  unfold create_title_block, create_notes_section. cbv zeta.
  by rewrite (title_block_fields_agree d d'), (notes_lines_agree d d').
Qed.

End UnreadKeys.

(** X8: the drawing depends on the metadata through the thirteen keys that
    the title block and the notes read, and on nothing else: setting or
    removing any other key of a non-empty dictionary, such as [revision],
    [checked_by] or [approved_by], changes nothing in a run of the
    orchestrator. *)
Theorem X8_unread_keys_change_nothing
  {E : externals} (mesh : nat) (views : views_t) (d : gmap string pyval)
  (k : string) (v : pyval) (out : string) (dims : bool) (w : world E) :
  ~ In k consumed_keys ->
  d <> ∅ ->
  create_engineering_drawing mesh views (Some (<[k := v]> d)) out dims w
  = create_engineering_drawing mesh views (Some d) out dims w
  /\ (delete k d <> ∅ ->
      create_engineering_drawing mesh views (Some (delete k d)) out dims w
      = create_engineering_drawing mesh views (Some d) out dims w).
Proof.
  intros Hk Hd. split.
  - apply create_engineering_drawing_agree; [done|apply insert_non_empty|].
    intros k' Hk'. apply lookup_insert_ne. by intros ->.
  - intros Hdel. apply create_engineering_drawing_agree; [done|done|].
    intros k' Hk'. apply lookup_delete_ne. by intros ->.
Qed.

Lemma X8_unread_keys_change_nothing_witness :
  let E := Box.externals_of (Some Box.cube) None None in
  let w := cube_world E centred_cube in
  create_engineering_drawing 0 slicing_planes
    (Some (<["revision" := PStr "B"]> (drawing_info E))) "drawing.png" true w
  = create_engineering_drawing 0 slicing_planes (Some (drawing_info E))
      "drawing.png" true w.
Proof.
  intros E w.
  refine (proj1 (X8_unread_keys_change_nothing (E := E) 0 slicing_planes
                   (drawing_info E) "revision" (PStr "B") "drawing.png" true w
                   _ _)).
  - simpl. intros H. repeat (destruct H as [H|H]; [discriminate H|]). exact H.
  - apply insert_non_empty.
Defined.

(** ** When the script succeeds *)

Lemma script_metadata_complete (E : externals) :
  EngineeringDrawing E (Some (drawing_info E)) = drawing_info E
  /\ (exists fields, title_block_fields (drawing_info E) = Ok fields)
  /\ (exists notes, notes_lines (drawing_info E) = Ok notes).
Proof.
  split; [apply EngineeringDrawing_non_empty, insert_non_empty|].
  split; eexists; vm_compute; reflexivity.
Qed.

(** X9: the metadata and the planes written in the script raise no
    exception of their own. When the mesh file loads, the centred mesh has
    bounds, trimesh slices it along each of the three planes into nothing or
    into an outline that can be drawn (polylines of two points or more,
    finite plot limits), and saving and showing do not raise, the script
    saves one image with six panels (three views, title block, notes and
    border), prints the report of the dimensions and leaves no error
    message. *)
Theorem X9_script_succeeds
  {E : externals} (w : world E) (m0 : Mesh E) (lo hi : vec3) :
  let m := ext_apply_translation E m0 (vneg (ext_center_mass E m0)) in
  ext_load_mesh E STL_FILE = Ok m0 ->
  ext_bounds E m = Some (lo, hi) ->
  Forall (fun view => well_sliced m (snd view)) slicing_planes ->
  (forall f, ext_savefig E OUTPUT_FILE savefig_options f = None) ->
  (forall f, ext_show E f = None) ->
  exists w' f dims,
    main w = (w', Ok tt)
    /\ files w' = files w ++ [(OUTPUT_FILE, f)]
    /\ length (fig_axes f) = 6
    /\ meshes w' = meshes w ++ [m]
    /\ dim_bounds dims = (lo, hi)
    /\ console w' = console w ++ success_report OUTPUT_FILE dims.
Proof.
  intros m Hload Hbounds Hsliced Hsave Hshow.
  destruct (script_metadata_complete E) as (Hmeta & [fields Hf] & [notes Hn]).
  assert (Hd : exists d0, dimensions_of (Some m) = Ok d0 /\ dim_bounds d0 = (lo, hi)).
  { simpl. rewrite Hbounds. destruct (vsub hi lo) as [[dx dy] dz].
    eexists. split; reflexivity. }
  destruct Hd as (d0 & Hd & Hd0).
  set (w1 := set_meshes (meshes w ++ [m]) w).
  assert (Hm1 : meshes w1 !! length (meshes w) = Some m)
    by (by apply list_lookup_middle).
  pose proof (create_engineering_drawing_total (length (meshes w)) m
                slicing_planes (Some (drawing_info E)) OUTPUT_FILE true w1
                fields notes d0 Hm1 Hd) as Hrun.
  rewrite Hmeta in Hrun. specialize (Hrun
    ltac:(apply (Forall_py_zip_fst (view_renders m true));
          eapply Forall_impl; [exact Hsliced|];
          intros [title pl] Hv; by apply view_renders_well_sliced)
    Hf Hn (Hsave _) (Hshow _)).
  rewrite main_run, main_body_run, load_and_center_mesh_run, Hload.
  fold m. fold w1. rewrite Hrun. cbn [meshes set_files set_figure].
  fold w1. rewrite Hm1, Hd.
  do 3 eexists. split; [reflexivity|].
  cbn [files console meshes set_console set_files set_figure w1 set_meshes].
  repeat split. exact Hd0.
Qed.

Lemma X9_script_succeeds_witness :
  let E := Box.externals_of (Some Box.cube) None None in
  let w := Box.initial_world E in
  exists w' f dims,
    main w = (w', Ok tt)
    /\ files w' = [(OUTPUT_FILE, f)]
    /\ length (fig_axes f) = 6
    /\ meshes w' = [centred_cube]
    /\ dim_bounds dims = ((-5, -5, -5), (5, 5, 5))%float
    /\ console w' = success_report OUTPUT_FILE dims.
Proof.
  intros E w.
  refine (X9_script_succeeds (E := E) w Box.cube (-5, -5, -5)%float
            (5, 5, 5)%float eq_refl eq_refl _ (fun _ => eq_refl)
            (fun _ => eq_refl)).
  repeat constructor; do 2 eexists; repeat split; try reflexivity;
    right; do 3 eexists; repeat split; try reflexivity; repeat constructor.
Defined.

(** ** Metadata is read last *)

Lemma view_panels_well_sliced {E : externals} (m : Mesh E) dims
  (views : views_t) (positions : list rect) :
  Forall (fun view => well_sliced m (snd view)) views ->
  view_panels m dims (py_zip views positions)
  = (map (view_panel m dims) (py_zip views positions), None).
Proof.
  intros Hviews. apply view_panels_all.
  apply (Forall_py_zip_fst (view_renders m dims)).
  eapply Forall_impl; [exact Hviews|]. intros [title pl] Hv.
  by apply view_renders_well_sliced.
Qed.

Lemma view_positions_zip_length {A} (views : list A) :
  length (py_zip views (view_positions (length views)))
  = Nat.min (length views) 3.
Proof.
  rewrite py_zip_length. unfold view_positions.
  destruct (Nat.eqb_spec (length views) 1) as [->|]; [done|].
  destruct (Nat.eqb_spec (length views) 2) as [->|]; [done|]. reflexivity.
Qed.

(** X10: the metadata is read after the views are drawn. For a mesh that
    has bounds and views that all slice cleanly (trimesh returns nothing,
    or an outline whose polylines have two points or more and whose plot
    limits are finite), with a non-empty dictionary that lacks a key of the
    title block, the orchestrator first slices and draws the views (the
    first three of them), adds the axes of the title block, and only then
    raises [KeyError] for a missing key of the title block; the notes and
    the border are not drawn and no image is saved. *)
Theorem X10_incomplete_metadata_fails_late
  {E : externals} (mesh : nat) (m : Mesh E) (views : views_t)
  (d : gmap string pyval) (k : string) (out : string) (dims : bool)
  (w : world E) (d0 : mesh_dimensions) :
  meshes w !! mesh = Some m ->
  dimensions_of (Some m) = Ok d0 ->
  Forall (fun view => well_sliced m (snd view)) views ->
  d <> ∅ ->
  In k title_block_keys ->
  d !! k = None ->
  exists w' k',
    create_engineering_drawing mesh views (Some d) out dims w
    = (w', Raise (key_error k'))
    /\ d !! k' = None
    /\ length (fig_axes (current_figure w')) = Nat.min (length views) 3 + 1
    /\ files w' = files w.
Proof.
  intros Hm Hd Hviews Hne Hk Hmissing.
  destruct (title_block_fields_spec d)
    as [(fields & _ & Hall)|(k' & _ & Hk' & Hfields)].
  { rewrite List.Forall_forall in Hall. destruct (Hall k Hk) as [v Hv].
    congruence. }
  exists (add_panel title_block_rect title_block_frame
            (add_panels (map (view_panel m dims)
                           (py_zip views (view_positions (length views))))
               (set_figure (drawing_figure []) w))), k'.
  rewrite create_engineering_drawing_run, (compose_figure_run _ m) by done.
  rewrite Hd. cbv zeta. unfold drawing_panels.
  rewrite view_panels_well_sliced by done.
  rewrite EngineeringDrawing_non_empty by done. rewrite Hfields.
  rewrite add_panels_drawing, add_panel_drawing. simpl app.
  cbn [fst snd outcome current_figure set_figure drawing_figure fig_axes files].
  repeat split; [exact Hk'|].
  rewrite length_map, length_app, length_map, view_positions_zip_length.
  reflexivity.
Qed.

Lemma X10_incomplete_metadata_fails_late_witness :
  let E := Box.externals_of (Some Box.cube) None None in
  let w := cube_world E Box.cube in
  exists w' k',
    create_engineering_drawing 0 slicing_planes (Some part_name_only)
      "drawing.png" true w
    = (w', Raise (key_error k'))
    /\ part_name_only !! k' = None
    /\ length (fig_axes (current_figure w')) = Nat.min 3 3 + 1
    /\ files w' = files w.
Proof.
  intros E w.
  refine (X10_incomplete_metadata_fails_late (E := E) 0 Box.cube slicing_planes
            part_name_only "company" "drawing.png" true w _ eq_refl eq_refl _
            _ _ eq_refl).
  - repeat constructor; do 2 eexists; repeat split; try reflexivity;
      left; reflexivity.
  - apply insert_non_empty.
  - simpl. tauto.
Defined.

(** ** Plot limits that are not finite *)

(** X11: for an outline whose polylines have two points or more and whose
    plot limits are not all finite, [plot_cross_section] raises the
    [ValueError] of [set_xlim] or [set_ylim] at the very end: the polygons
    and, when asked for, the dimensions are on the axes, at most the limits
    along [x] are set, and the aspect ratio is not set nor the axes hidden. *)
Theorem X11_limits_refused
  {E : externals} (ax : nat) (p : Path2D) (title : string) (dims : bool)
  (w : world E) :
  Forall (fun path => 2 <= length path) (discrete p) ->
  finite_limits p = false ->
  exists ls,
    plot_cross_section ax (Some p) title dims w
    = (emit ax
         (map (fun path => outline_patch (closed_vertices path)) (discrete p)
          ++ (if dims then dimension_artists p else []) ++ ls) w,
       Raise (Exn ValueError "Axis limits cannot be NaN or Inf"))
    /\ (ls = [] \/ exists lo hi, ls = [ax_set_xlim lo hi]).
Proof.
  intros Hlen Hfin. exists (fst (accepted (limits_artists p))).
  destruct (accepted_limits_refused p Hfin) as [Hraise Hls].
  split; [|exact Hls].
  rewrite plot_cross_section_run. cbn [panel_artists].
  rewrite outline_artists_closed by done.
  destruct (accepted (limits_artists p)) as [ls r]. simpl in *. by rewrite Hraise.
Qed.

Lemma X11_limits_refused_witness :
  let E := Box.externals_of None None None in
  exists ls,
    plot_cross_section 0 (Some huge_outline) "TOP VIEW" false
      (Box.initial_world E)
    = (emit 0
         (map (fun path => outline_patch (closed_vertices path))
              (discrete huge_outline) ++ [] ++ ls)
         (Box.initial_world E),
       Raise (Exn ValueError "Axis limits cannot be NaN or Inf"))
    /\ (ls = [] \/ exists lo hi, ls = [ax_set_xlim lo hi]).
Proof.
  intros E.
  refine (X11_limits_refused (E := E) 0 huge_outline "TOP VIEW" false
            (Box.initial_world E) _ eq_refl).
  repeat constructor.
Defined.

(** On this outline the width is infinite and so is the padding: nothing
    but the polygon reaches the axes. *)
Example huge_outline_run :
  let E := Box.externals_of None None None in
  plot_cross_section 0 (Some huge_outline) "TOP VIEW" false
    (Box.initial_world E)
  = (emit 0
       [outline_patch
          [(-1e308, 0); (1e308, 0); (1e308, 1); (-1e308, 1); (-1e308, 0)]%float]
       (Box.initial_world E),
     Raise (Exn ValueError "Axis limits cannot be NaN or Inf")).
Proof. vm_compute. reflexivity. Qed.
